(** * comedy: the actor system and the configurable logger

    A shallow embedding of [ActorSystem] (placement of actors, the forked
    spawn handshake, configuration loading, the module loader helper, the
    default system accessor), of [LoggerConfiguration] and of [LogWrapper],
    followed by the properties established about them.

    JavaScript data is modelled by the type [value]; objects used as
    dictionaries (options, configuration, wire frames) are finite maps from
    property names to values.  Side effects are explicit: a function that
    mutates [this] takes the state and returns the new one.  What is the
    host's and is not modelled (the conversion of a string to a number,
    lower-casing outside the ASCII range, the members of the built-in
    prototypes) is a parameter of the definitions that need it, or is
    kept out of a property by a hypothesis. *)

From Stdlib Require Import ZArith NArith String Ascii DecimalString DecimalN
  DecimalFacts.
From stdpp Require Import gmap strings list fin_maps.

Local Open Scope Z_scope.

(** ** JavaScript values *)

(** JSON data and [undefined].  A number is integer-valued: the code's
    arithmetic ([port + counter], [clusterSize > 1]) is exact on integers
    below 2^53.  A number with a fractional part, NaN and the infinities
    are not among these values. *)
#[warnings="-register-all"]
Inductive value : Type :=
| VUndefined
| VNull
| VBool (b : bool)
| VNum (n : Z)
| VStr (s : string)
| VArr (items : list value)
| VObj (props : gmap string value).

(** What a call can do besides returning: throw. *)
Inductive exn : Type :=
| MkError (message : string)
| MkTypeError (message : string).

Inductive completion (A : Type) : Type :=
| Returned (a : A)
| Thrown (e : exn).
Arguments Returned {A} a.
Arguments Thrown {A} e.

(** The state a promise settles in. *)
Inductive settled (A : Type) : Type :=
| Fulfilled (a : A)
| Rejected (reason : exn).
Arguments Fulfilled {A} a.
Arguments Rejected {A} reason.


Definition showN (n : N) : string := NilEmpty.string_of_uint (N.to_uint n).
Definition showZ (n : Z) : string := NilZero.string_of_int (Z.to_int n).
Definition showNat (n : nat) : string := showN (N.of_nat n).

(** [!!v] *)
Definition truthy (v : value) : bool :=
  match v with
  | VUndefined | VNull => false
  | VBool b => b
  | VNum n => negb (n =? 0)
  | VStr s => negb (String.eqb s "")
  | VArr _ | VObj _ => true
  end.

(** [v == null] *)
Definition isNullish (v : value) : bool :=
  match v with
  | VUndefined | VNull => true
  | _ => false
  end.

(** [typeof v] *)
Definition typeOf (v : value) : string :=
  match v with
  | VUndefined => "undefined"
  | VNull => "object"
  | VBool _ => "boolean"
  | VNum _ => "number"
  | VStr _ => "string"
  | VArr _ | VObj _ => "object"
  end.

(** [String(v)], also what ['' + v] yields.  An array joins its elements
    with commas, [null] and [undefined] elements giving the empty string. *)
Fixpoint toStr (v : value) : string :=
  match v with
  | VUndefined => "undefined"
  | VNull => "null"
  | VBool true => "true"
  | VBool false => "false"
  | VNum n => showZ n
  | VStr s => s
  | VArr items =>
      String.concat ","
        (List.map (fun x => match x with
                            | VUndefined | VNull => ""
                            | _ => toStr x
                            end) items)
  | VObj _ => "[object Object]"
  end.

Definition isDigit (c : ascii) : bool :=
  (48 <=? nat_of_ascii c)%nat && (nat_of_ascii c <=? 57)%nat.

Definition digitValue (c : ascii) : N := N.of_nat (nat_of_ascii c - 48).

(** The longest prefix of decimal digits, and what follows it. *)
Fixpoint spanDigits (s : string) : string * string :=
  match s with
  | String c rest =>
      if isDigit c
      then let '(ds, tl) := spanDigits rest in (String c ds, tl)
      else (EmptyString, s)
  | EmptyString => (EmptyString, EmptyString)
  end.

(** What follows the prefix [p] in [s], if [s] starts with [p]. *)
Fixpoint stripPrefix (p s : string) : option string :=
  match p with
  | EmptyString => Some s
  | String a p' =>
      match s with
      | String b s' => if Ascii.eqb a b then stripPrefix p' s' else None
      | EmptyString => None
      end
  end.

(** The number a string of decimal digits denotes. *)
Fixpoint digitsFrom (acc : N) (s : string) : N :=
  match s with
  | String c rest => digitsFrom (10 * acc + digitValue c)%N rest
  | EmptyString => acc
  end.

(** [parseInt(s)] on a string of decimal digits. *)
Definition parseInt (digits : string) : N := digitsFrom 0%N digits.

(** [v > n] for an integer [n].  [undefined] converts to NaN, and a
    comparison with NaN is false; [null] converts to 0 and a boolean to 0
    or 1.  A string is converted by the host's [Number], which reads
    decimal fractions, exponents, hexadecimal literals and [Infinity],
    and rounds to a double; that conversion is the host's, so what the
    comparison yields for a string is the parameter [stringGt].  An array
    or an object is compared through its string form, which is [toStr]
    as long as its data does not shadow [toString]. *)
Definition jsGt (stringGt : string -> Z -> bool) (v : value) (n : Z)
  : bool :=
  match v with
  | VUndefined => false
  | VNull => n <? 0
  | VBool b => n <? (if b then 1 else 0)
  | VNum x => n <? x
  | VStr s => stringGt s n
  | VArr _ | VObj _ => stringGt (toStr v) n
  end.

(** [v === s] for a string [s]. *)
Definition strictEqStr (v : value) (s : string) : bool :=
  match v with
  | VStr t => String.eqb t s
  | _ => false
  end.


(** The indexed elements of an array, as [for ... in] enumerates them. *)
Definition arrayEntries (items : list value) : list (string * value) :=
  imap (fun i x => (showNat i, x)) items.

Definition stringEntries (s : string) : list (string * value) :=
  imap (fun i c => (showNat i, VStr (String c EmptyString)))
       (list_ascii_of_string s).

(** [v[k]] for [v] other than [null] and [undefined] (on those the read
    throws, which the callers below check first).  The members inherited
    from the built-in prototypes are functions and are left out: the reads
    of the modelled code use names no built-in prototype defines, or feed
    [_.extend], for which a function contributes no key, as [undefined]
    does. *)
Definition getField (v : value) (k : string) : value :=
  match v with
  | VObj props => default VUndefined (props !! k)
  | VArr items =>
      if String.eqb k "length" then VNum (Z.of_nat (length items))
      else default VUndefined
             ((list_to_map (arrayEntries items) : gmap string value) !! k)
  | VStr s =>
      if String.eqb k "length" then VNum (Z.of_nat (String.length s))
      else default VUndefined
             ((list_to_map (stringEntries s) : gmap string value) !! k)
  | _ => VUndefined
  end.

(** ** underscore and underscore.string *)

(** [_.isObject(v)], [_.isString(v)] *)
Definition isObject (v : value) : bool :=
  match v with
  | VArr _ | VObj _ => true
  | _ => false
  end.

Definition isString (v : value) : bool :=
  match v with
  | VStr _ => true
  | _ => false
  end.

(** [_.allKeys(v)] with the values under the keys: the enumerable
    properties of an object or an array, nothing for anything else. *)
Definition allKeys (v : value) : gmap string value :=
  match v with
  | VObj props => props
  | VArr items => list_to_map (arrayEntries items)
  | _ => ∅
  end.

(** [_.extend(obj, source1, ..., sourceN)]: every enumerable property of
    every source is assigned to [obj], the sources taken from left to
    right, so a later one overwrites an earlier one. *)
Definition extend (obj : gmap string value) (sources : list value)
  : gmap string value :=
  foldl (fun o source => allKeys source ∪ o) obj sources.

(** [s[0]]: the first character of a string, if any. *)
Definition first (s : string) : option ascii :=
  match s with
  | String c _ => Some c
  | EmptyString => None
  end.


(** A character of the ASCII range. *)
Definition isAscii (c : ascii) : bool := (nat_of_ascii c <? 128)%nat.

(** [c.toLowerCase()] for a character of the ASCII range, where it
    changes the letters A to Z and nothing else.  Outside that range the
    host lower-cases with the Unicode tables, which are not modelled: a
    property that depends on the lower-cased character is stated for
    strings that begin with an ASCII character. *)
Definition toLowerCase (c : ascii) : ascii :=
  let n := nat_of_ascii c in
  if (65 <=? n)%nat && (n <=? 90)%nat then ascii_of_nat (n + 32) else c.

(** [s.decapitalize(str)]: [str.charAt(0).toLowerCase() + str.slice(1)]. *)
Definition decapitalize (str : string) : string :=
  match str with
  | String c rest => String (toLowerCase c) rest
  | EmptyString => EmptyString
  end.

(** underscore.string's [makeString]: the argument of [decapitalize] is
    turned into a string first. *)
Definition makeString (v : value) : string :=
  if isNullish v then "" else toStr v.

(** ** Behaviours *)

(** A member of a behaviour object: data, or a function with its [name]
    and the value a call on the object returns. *)
Inductive field : Type :=
| FData (v : value)
| FFunction (name : string) (returns : value).

(** An object with its own members and its prototype. *)
#[warnings="-register-all"]
Inductive object : Type :=
| Object (own : gmap string field) (proto : option object).

(** [o[k]], looked up along the prototype chain. *)
Fixpoint getMember (o : object) (k : string) : option field :=
  match o with
  | Object own proto =>
      match own !! k with
      | Some f => Some f
      | None =>
          match proto with
          | Some p => getMember p k
          | None => None
          end
      end
  end.

(** [Object.prototype], with the members name resolution can meet. *)
Definition ObjectPrototype : object :=
  Object (<["constructor" := FFunction "Object" (VObj ∅)]>
          (<["toString" := FFunction "toString" (VStr "[object Object]")]> ∅))
         None.

(** An object literal [{ k1: f1, ... }]. *)
Definition objectLiteral (own : gmap string field) : object :=
  Object own (Some ObjectPrototype).

(** The prototype object of [class className { methods }]. *)
Definition classPrototype (className : string) (methods : gmap string field)
  : object :=
  Object (<["constructor" := FFunction className VUndefined]> methods)
         (Some ObjectPrototype).

(** What [createActor] is given as [Behaviour]: nothing ([undefined]), an
    object, or a function (a class) with its name, of which
    [new Behaviour()] yields [instance]. *)
Inductive behaviour : Type :=
| BAbsent
| BObject (o : object)
| BFunction (name : string) (instance : object).

Definition fieldTruthy (f : option field) : bool :=
  match f with
  | Some (FData v) => truthy v
  | Some (FFunction _ _) => true
  | None => false
  end.

(** [_.isFunction(o[k])] *)
Definition fieldIsFunction (f : option field) : bool :=
  match f with
  | Some (FFunction _ _) => true
  | _ => false
  end.

(** [_.result(o, k)]: the member, called on [o] if it is a function. *)
Definition result (o : object) (k : string) : value :=
  match getMember o k with
  | Some (FData v) => v
  | Some (FFunction _ r) => r
  | None => VUndefined
  end.

(** [f.name] for a truthy member [f]. *)
Definition fieldName (f : option field) : value :=
  match f with
  | Some (FFunction n _) => VStr n
  | Some (FData v) => getField v "name"
  | None => VUndefined
  end.

(** ** The actor system *)

Inductive logMethod : Type := LogDebug | LogInfo | LogWarn | LogError.

(** The process the system runs in: where the application lives, the
    options node was started with, the directory of the library, the file
    system and the JSON parser ([None]: the read fails, the parse throws). *)
Record env : Type := {
  appRootPath : string;
  dirname : string;
  execArgv : list string;
  readFile : string -> option string;
  JSON_parse : string -> option value
}.

(** A call of [childProcess.fork]; it also stands for the worker process
    it starts. *)
Record forkCall : Type := {
  modulePath : string;
  psArgs : list string;
  forkExecArgv : list string
}.

#[warnings="-register-all"]
Inductive actor : Type :=
| RootActor
| InMemoryActor (parent : option actor) (behaviour0 : option object)
                (name : value)
| ForkedActorParent (parent : option actor) (worker : forkCall)
                    (id : value) (name : value)
| RoundRobinBalancerActor (parent : option actor).

(** The work a promise returned by [createActor] stands for. *)
Inductive creation : Type :=
| CreateCluster (balancer : actor) (Behaviour : behaviour)
                (clusterSize : value) (childOptions : gmap string value)
| CreateInMemory (Behaviour : behaviour) (parent : option actor)
                 (actorName : value)
| CreateForked (Behaviour : behaviour) (parent : option actor)
               (actorName : value).

(** [P.resolve().then(work)] and [P.resolve().throw(reason)]: the first
    settles as the work does, the second is rejected with [reason]. *)
Inductive promise : Type :=
| PThen (work : creation)
| PThrow (reason : exn).


Module ActorSystem.

(** The fields of the system the operations below read or write; [log]
    holds the calls made on the system's logger. *)
Record system : Type := {
  config : value;
  debugPortCounter : N;
  forked : bool;
  log : list (logMethod * string)
}.

Definition logInfo (sys : system) (message : string) : system :=
  {| config := config sys;
     debugPortCounter := debugPortCounter sys;
     forked := forked sys;
     log := log sys ++ [(LogInfo, message)] |}.

Definition setConfig (sys : system) (c : value) : system :=
  {| config := c;
     debugPortCounter := debugPortCounter sys;
     forked := forked sys;
     log := log sys |}.

Definition setDebugPortCounter (sys : system) (n : N) : system :=
  {| config := config sys;
     debugPortCounter := n;
     forked := forked sys;
     log := log sys |}.

(** [options || {}] *)
Definition orEmpty (options : value) : value :=
  if truthy options then options else VObj ∅.

(** The fields as the constructor leaves them, before the root actor
    promise runs. *)
Definition new (options : value) : system :=
  let options := orEmpty options in
  {| config := VUndefined;
     debugPortCounter := 1;
     forked := truthy (getField options "forked");
     log := [] |}.

(** [_.isFunction(Behaviour) ? new Behaviour() : Behaviour]; [None] is
    [undefined]. *)
Definition instantiate (Behaviour : behaviour) : option object :=
  match Behaviour with
  | BFunction _ instance => Some instance
  | BObject o => Some o
  | BAbsent => None
  end.

Definition _actorName (Behaviour : behaviour) : completion value :=
  match instantiate Behaviour with
  | None => Thrown (MkTypeError "Cannot read property 'name' of undefined")
  | Some behaviour0 =>
      if fieldTruthy (getMember behaviour0 "name")
      then Returned (result behaviour0 "name")
      else if fieldIsFunction (getMember behaviour0 "getName")
      then Returned (result behaviour0 "getName")
      else if fieldTruthy (getMember behaviour0 "constructor")
              && truthy (fieldName (getMember behaviour0 "constructor"))
      then Returned (fieldName (getMember behaviour0 "constructor"))
      else Returned (VStr "")
  end.

(** [options.mode || 'in-memory'], what the [switch] dispatches on. *)
Definition switchMode (options : value) : value :=
  if truthy (getField options "mode")
  then getField options "mode" else VStr "in-memory".

(** The options of [createActor] once the configuration is taken into
    account (the statement under "Determine actor configuration"). *)
Definition actorOptions (sys : system) (actorName : value) (options : value)
  : value :=
  if truthy (config sys) && truthy actorName
  then
    let actorConfig :=
      getField (config sys) (decapitalize (makeString actorName)) in
    VObj (extend {["mode" := VStr "in-memory"]} [actorConfig; options])
  else options.

Definition createInMemoryActor (Behaviour : behaviour)
    (parent : option actor) (actorName : value) : promise :=
  PThen (CreateInMemory Behaviour parent actorName).

Definition createForkedActor (Behaviour : behaviour)
    (parent : option actor) (actorName : value) : promise :=
  PThen (CreateForked Behaviour parent actorName).

(** [createActor] from the cluster test on (the statements under
    "Perform clusterization, if needed" and "Actor creation"), for the
    options determined before. *)
Definition placeActor (stringGt : string -> Z -> bool)
    (Behaviour : behaviour) (parent : option actor) (actorName : value)
    (options : value) : completion promise :=
  if jsGt stringGt (getField options "clusterSize") 1
  then
    Returned
      (PThen (CreateCluster (RoundRobinBalancerActor parent) Behaviour
                (getField options "clusterSize")
                (extend ∅ [options; VObj {["clusterSize" := VNum 1]}])))
  else if strictEqStr (switchMode options) "in-memory"
  then Returned (createInMemoryActor Behaviour parent actorName)
  else if strictEqStr (switchMode options) "forked"
  then Returned (createForkedActor Behaviour parent actorName)
  else Returned
         (PThrow (MkError ("Unknown actor mode: "
                           +:+ toStr (getField options "mode")))).

Definition createActor (stringGt : string -> Z -> bool) (sys : system)
    (Behaviour : behaviour) (parent : option actor) (options : value)
  : completion promise :=
  let options := orEmpty options in
  match _actorName Behaviour with
  | Thrown e => Thrown e
  | Returned actorName =>
      let options := actorOptions sys actorName options in
      placeActor stringGt Behaviour parent actorName options
  end.

(** The work of [createInMemoryActor]. *)
Definition runCreateInMemory (Behaviour : behaviour)
    (parent : option actor) (actorName : value) : actor :=
  InMemoryActor parent (instantiate Behaviour) actorName.

(** [arg.match(/^--debug-brk=(\d+)/)]: the digits captured, if the
    argument matches. *)
Definition matchDebugBrk (arg : string) : option string :=
  match stripPrefix "--debug-brk=" arg with
  | Some rest =>
      let digits := fst (spanDigits rest) in
      if String.eqb digits "" then None else Some digits
  | None => None
  end.

(** The function mapped over [process.execArgv]; it reads and
    increments [this.debugPortCounter]. *)
Definition rewriteArg (arg : string) (counter : N) : string * N :=
  match matchDebugBrk arg with
  | Some digits =>
      let debugPort := parseInt digits in
      ("--debug-brk=" +:+ showN (debugPort + counter), (counter + 1)%N)
  | None => (arg, counter)
  end.

(** [_.map(process.execArgv, ...)], from left to right. *)
Fixpoint mapExecArgv (args : list string) (counter : N)
  : list string * N :=
  match args with
  | [] => ([], counter)
  | arg :: rest =>
      let '(arg', counter') := rewriteArg arg counter in
      let '(rest', counter'') := mapExecArgv rest counter' in
      (arg' :: rest', counter'')
  end.

(** The first part of the work of [createForkedActor]: the worker is
    forked, the debug port counter advanced. *)
Definition forkWorker (e : env) (sys : system) (Behaviour : behaviour)
  : forkCall * system :=
  let psArgs :=
    match Behaviour with
    | BFunction name _ => if String.eqb name "" then [] else [name]
    | _ => []
    end in
  let '(argv, counter) := mapExecArgv (execArgv e) (debugPortCounter sys) in
  ({| modulePath := dirname e +:+ "/forked-actor-worker.js";
      psArgs := psArgs;
      forkExecArgv := argv |},
   setDebugPortCounter sys counter).




(** Reading a file and parsing it as JSON; [None] when either fails. *)
Definition readJSON (e : env) (path : string) : option value :=
  match readFile e path with
  | Some data => JSON_parse e data
  | None => None
  end.

(** [appRootPath + '/actors.json'] *)
Definition defaultPath (e : env) : string :=
  appRootPath e +:+ "/actors.json".

(** The promise [_loadConfiguration] returns, followed until it settles.
    [fuel] bounds the depth of the calls to itself. *)
Fixpoint _loadConfiguration (fuel : nat) (e : env) (sys : system)
    (config : value) : option (system * settled unit) :=
  match fuel with
  | O => None
  | S fuel' =>
      if isObject config
      then
        let sys := setConfig sys config in
        let sys := if forked sys then sys
                   else logInfo sys "Using programmatic actor configuration." in
        Some (sys, Fulfilled tt)
      else
        let defaultPath := defaultPath e in
        match config with
        | VStr path =>
            match readJSON e path with
            | Some data =>
                Some (logInfo (setConfig sys data)
                        ("Using actor configuration file: " +:+ path),
                      Fulfilled tt)
            | None =>
                _loadConfiguration fuel' e
                  (logInfo sys
                     ("Failed to load actor configuration file " +:+ path
                      +:+ ", will try default path: " +:+ defaultPath))
                  VUndefined
            end
        | _ =>
            match readJSON e defaultPath with
            | Some data =>
                Some (logInfo (setConfig sys data)
                        ("Using actor configuration file: " +:+ defaultPath),
                      Fulfilled tt)
            | None =>
                Some (logInfo sys
                        ("Failed to load actor configuration file "
                         +:+ defaultPath
                         +:+ ", no actor configuration will be used."),
                      Fulfilled tt)
            end
        end
  end.

(** The module-level variable [defaultSystem], and the systems
    constructed so far: a system is identified by its position there. *)
Record process : Type := {
  defaultSystem : option nat;
  systems : list system
}.

(** The process when the module has just been loaded. *)
Definition initialProcess : process :=
  {| defaultSystem := None; systems := [] |}.

(** [ActorSystem.default()]: what it returns ([None] is [undefined]) and
    the process afterwards. *)
Definition default (p : process) : option nat * process :=
  match defaultSystem p with
  | Some _ =>
      let fresh := length (systems p) in
      let p' := {| defaultSystem := Some fresh;
                   systems := systems p ++ [new VUndefined] |} in
      (defaultSystem p', p')
  | None => (defaultSystem p, p)
  end.

(** How the constructor obtains the root actor, once the promise for the
    context's [initialize] has settled: if that was rejected, so is the
    root actor promise; otherwise the root comes from [createActor] on
    [options.root], wrapped in a [ForkedActorChild] when [options.forked]
    is set, or, without [options.root], it is a new [RootActor].  Either
    comes before [_loadConfiguration], which the root actor promise only
    goes on with afterwards. *)
Inductive rootPlan : Type :=
| ContextFailed (reason : exn)
| CustomRoot (creation : completion promise) (forkedChild : bool)
| DefaultRoot (forked : bool).

(** The first stage of [rootActorPromise]; [root] is [options.root],
    [BAbsent] when the option is not given, and [initRet] is how the
    context's [initialize] ended. *)
Definition rootActorPromise (stringGt : string -> Z -> bool)
    (options : value) (root : behaviour) (initRet : settled unit)
  : rootPlan :=
  let sys := new options in
  match initRet with
  | Rejected reason => ContextFailed reason
  | Fulfilled _ =>
      match root with
      | BAbsent => DefaultRoot (forked sys)
      | _ =>
          CustomRoot
            (createActor stringGt sys root None
               (VObj {["mode" := VStr "in-memory"]}))
            (forked sys)
      end
  end.

(** A behaviour, an object or a function, as [_serializeBehaviour] sees
    it: what
    [common.isPlainObject] says of it, whether its [name] is truthy, the
    text [toSource] gives for it, and what [Object.getPrototypeOf]
    yields ([None] is [null]). *)
#[warnings="-register-all"]
Inductive serializable : Type :=
| Serializable (isPlainObject : bool) (named : bool) (toSource : string)
               (getPrototypeOf : option serializable).

Definition hasName (b : serializable) : bool :=
  match b with
  | Serializable _ named _ _ => named
  end.

Definition sourceOf (b : serializable) : string :=
  match b with
  | Serializable _ _ toSource _ => toSource
  end.

Fixpoint _serializeBehaviour (behaviour : serializable) : string :=
  match behaviour with
  | Serializable isPlainObject _ toSource getPrototypeOf =>
      if negb isPlainObject
      then
        match getPrototypeOf with
        | Some base =>
            if hasName base
            then _serializeBehaviour base +:+ toSource
            else toSource
        | None => toSource
        end
      else toSource
  end.

End ActorSystem.

(** ** The logger *)

(** The enumeration [LogLevel] of the package js-utils-extended, which the
    logger imports: the number behind each level is a parameter here. *)
Record LogLevelEnum : Type := {
  Silent : Z;
  Error : Z;
  Warn : Z;
  Info : Z;
  Debug : Z
}.

Module LoggerConfiguration.

Definition CONFIG_CHANGE : string := "configChange".

(** [_current] is [None] while nothing was assigned; [emitted] holds the
    events emitted so far, each with the configuration held when it was
    emitted. *)
Record t : Type := {
  _current : option (gmap string value);
  emitted : list (string * option (gmap string value))
}.

(** lodash's [_.extend(object, source)]: [Object(object)], a new empty
    object when [object] is absent, receives the properties of [source]. *)
Definition lodashExtend (object : option (gmap string value))
    (source : gmap string value) : gmap string value :=
  source ∪ default ∅ object.

(** The setter of [current].  Its argument is a record by its type;
    [None] is an absent one ([undefined] or [null]), which the setter
    checks for. *)
Definition set_current (LogLevel : LogLevelEnum) (self : t)
    (value : option (gmap string value)) : t :=
  let current := value in
  let current :=
    match current with
    | None =>
        Some (lodashExtend current
                {["categories" :=
                    VObj {["Default" := VNum (Info LogLevel)]}]})
    | Some c =>
        if negb (String.eqb (typeOf (getField (VObj c) "categories"))
                            "object")
        then Some (lodashExtend current
                     {["categories" :=
                         VObj {["Default" := VNum (Info LogLevel)]}]})
        else current
    end in
  {| _current := current;
     emitted := emitted self ++ [(CONFIG_CHANGE, current)] |}.

(** The constructor: [super(200); this.current = configuration]. *)
Definition new (LogLevel : LogLevelEnum)
    (configuration : option (gmap string value)) : t :=
  set_current LogLevel {| _current := None; emitted := [] |} configuration.

(** What reading [o[k]] finds: a value of the data, or a member that
    [o] inherits from a built-in prototype (a function, or the prototype
    itself for [__proto__]: truthy in either case). *)
Inductive member : Type :=
| Data (v : value)
| Builtin (k : string).

Definition memberTruthy (m : member) : bool :=
  match m with
  | Data v => truthy v
  | Builtin _ => true
  end.

(** The own property [k] of [o], if it has one. *)
Definition ownProperty (o : value) (k : string) : option value :=
  match o with
  | VObj props => props !! k
  | VArr items =>
      if String.eqb k "length" then Some (VNum (Z.of_nat (length items)))
      else (list_to_map (arrayEntries items) : gmap string value) !! k
  | VStr s =>
      if String.eqb k "length" then Some (VNum (Z.of_nat (String.length s)))
      else (list_to_map (stringEntries s) : gmap string value) !! k
  | _ => None
  end.

(** [o[k]] for a name [k] that is not fixed by the code.  Which names the
    built-in prototype of a value defines is the host's business:
    [builtin o k] says whether [o] inherits a member [k]. *)
Definition readMember (builtin : value -> string -> bool) (o : value)
    (k : string) : member :=
  match ownProperty o k with
  | Some v => Data v
  | None => if builtin o k then Builtin k else Data VUndefined
  end.

(** Reading a property of [undefined] or [null] throws a [TypeError];
    its text is the engine's and differs between versions, and no
    property depends on it. *)
Definition getCategoryLevel (builtin : value -> string -> bool) (self : t)
    (category : string) : completion member :=
  match _current self with
  | None =>
      Thrown (MkTypeError "Cannot read property 'categories' of undefined")
  | Some current =>
      let categories := getField (VObj current) "categories" in
      if isNullish categories
      then Thrown (MkTypeError ("Cannot read property '" +:+ category
                                +:+ "' of " +:+ toStr categories))
      else if memberTruthy (readMember builtin categories category)
      then Returned (readMember builtin categories category)
      else Returned (readMember builtin categories "Default")
  end.

End LoggerConfiguration.

(** An [Error] object as [LogWrapper.error] reads it. *)
Record errorObject : Type := {
  message : string;
  stack : option string;
  isOperational : bool
}.

Module LogWrapper.

(** The fields the logging methods read and write; [logger] holds the
    calls made on the underlying logger (the console).  The optional
    configuration, which only the constructor and the setter of [level]
    touch, is absent, as it is for the wrapper [silent] makes. *)
Record t : Type := {
  _category : string;
  _level : Z;
  logger : list (logMethod * string)
}.

Definition call (self : t) (method : logMethod) (message : string) : t :=
  {| _category := _category self;
     _level := _level self;
     logger := logger self ++ [(method, message)] |}.

(** [new LogWrapper(level, category)], with the defaults of the
    constructor for the arguments left out. *)
Definition new (LogLevel : LogLevelEnum) (level : option Z)
    (category : option string) : t :=
  {| _category := default "Default" category;
     _level := default (Info LogLevel) level;
     logger := [] |}.

(** The setter of [level]; there is no configuration to unsubscribe
    from. *)
Definition set_level (self : t) (value : Z) : t :=
  {| _category := _category self;
     _level := value;
     logger := logger self |}.

Definition debug (LogLevel : LogLevelEnum) (self : t) (message : string)
  : t :=
  if Debug LogLevel <=? _level self then call self LogDebug message
  else self.

Definition log (LogLevel : LogLevelEnum) (self : t) (message : string)
  : t :=
  if Info LogLevel <=? _level self then call self LogInfo message
  else self.

Definition info (LogLevel : LogLevelEnum) (self : t) (message : string)
  : t :=
  if Info LogLevel <=? _level self then call self LogInfo message
  else self.

Definition warn (LogLevel : LogLevelEnum) (self : t) (message : string)
  : t :=
  if Warn LogLevel <=? _level self then call self LogWarn message
  else self.

(** The string [error] hands to the underlying logger, for its argument
    [msg], a string or an [Error]. *)
Definition messageString (msg : string + errorObject) : string :=
  match msg with
  | inr e =>
      if isOperational e then message e
      else match stack e with
           | Some s => s
           | None => message e
           end
  | inl s => s
  end.

Definition error (self : t) (msg : string + errorObject) : t :=
  call self LogError (messageString msg).

Definition silent (LogLevel : LogLevelEnum) : t :=
  let logger := new LogLevel None None in
  set_level logger (Silent LogLevel).

(** The getter [isDebug]. *)
Definition isDebug (LogLevel : LogLevelEnum) (self : t) : bool :=
  Debug LogLevel <=? _level self.

End LogWrapper.

(** ** Vocabulary of the properties *)

(** The debug ports among the arguments of a process, in order. *)
Definition debugPortsOf (args : list string) : list N :=
  omap (fun arg => parseInt <$> ActorSystem.matchDebugBrk arg) args.

(** One forked spawn after the other, for the behaviours of the list. *)
Fixpoint forkWorkers (e : env) (sys : ActorSystem.system)
    (Behaviours : list behaviour) : list forkCall * ActorSystem.system :=
  match Behaviours with
  | [] => ([], sys)
  | Behaviour :: rest =>
      let '(worker, sys') := ActorSystem.forkWorker e sys Behaviour in
      let '(workers, sys'') := forkWorkers e sys' rest in
      (worker :: workers, sys'')
  end.

(** [n] calls of [ActorSystem.default()] in a row: the process after
    them. *)
Fixpoint defaultCalls (n : nat) (p : ActorSystem.process)
  : ActorSystem.process :=
  match n with
  | O => p
  | S n' => defaultCalls n' (snd (ActorSystem.default p))
  end.


(** A string of decimal digits only. *)
Definition digitsOnly (s : string) : Prop :=
  Forall (fun c => isDigit c = true) (list_ascii_of_string s).

(** A string that does not begin with a decimal digit. *)
Definition noLeadingDigit (s : string) : Prop :=
  match s with
  | String c _ => isDigit c = false
  | EmptyString => True
  end.

(** An upper-case letter of the ASCII range. *)
Definition isUpper (c : ascii) : bool :=
  (65 <=? nat_of_ascii c)%nat && (nat_of_ascii c <=? 90)%nat.

(** A string that does not begin with a character outside the ASCII
    range: on its first character [toLowerCase] is the host's. *)
Definition asciiFirst (s : string) : Prop :=
  match s with
  | String c _ => isAscii c = true
  | EmptyString => True
  end.

(** The values that count as false: [undefined], [null], [false], [0]
    and the empty string. *)
Definition falsyValues : list value :=
  [VUndefined; VNull; VBool false; VNum 0; VStr ""].

(** The ten decimal digits. *)
Definition decimalDigits : list ascii := list_ascii_of_string "0123456789".

(** The number of the double-precision format from which on not every
    integer is a number: below it [port + counter] is exact. *)
Definition maxSafe : N := (2 ^ 53)%N.

(** The process of a worker: node starts it with the arguments given to
    [childProcess.fork]. *)
Definition workerEnv (e : env) (worker : forkCall) : env :=
  {| appRootPath := appRootPath e;
     dirname := dirname e;
     execArgv := forkExecArgv worker;
     readFile := readFile e;
     JSON_parse := JSON_parse e |}.

(** One assignment to [current] after the other. *)
Definition assignAll (LogLevel : LogLevelEnum) (self : LoggerConfiguration.t)
    (values : list (option (gmap string value))) : LoggerConfiguration.t :=
  foldl (LoggerConfiguration.set_current LogLevel) self values.

(** A class, which is no plain object and has a name, with the sources
    of its user-defined ancestors, nearest first: each class extends the
    next one, and the last one has the prototype [top]
    ([Function.prototype] for a class that extends nothing). *)
Fixpoint classChain (top : ActorSystem.serializable) (source : string)
    (ancestors : list string) : ActorSystem.serializable :=
  match ancestors with
  | [] => ActorSystem.Serializable false true source (Some top)
  | parent :: rest =>
      ActorSystem.Serializable false true source
        (Some (classChain top parent rest))
  end.

(** The names every object inherits from [Object.prototype]. *)
Definition objectPrototypeNames : list string :=
  ["constructor"; "hasOwnProperty"; "isPrototypeOf"; "propertyIsEnumerable";
   "toLocaleString"; "toString"; "valueOf"; "__proto__";
   "__defineGetter__"; "__defineSetter__"; "__lookupGetter__";
   "__lookupSetter__"].

(** ** Sample inputs *)

(** A host's comparison of a string with a number, for the examples: it
    reads a run of decimal digits, and answers no for any other string.
    No example has a string compared. *)
Definition sampleStringGt (s : string) (n : Z) : bool :=
  match spanDigits s with
  | (String c ds, EmptyString) => n <? Z.of_N (parseInt (String c ds))
  | _ => false
  end.

(** The built-in members of a plain object. *)
Definition sampleBuiltin (o : value) (k : string) : bool :=
  match o with
  | VObj _ => bool_decide (k ∈ objectPrototypeNames)
  | _ => false
  end.


(** A process whose file system has no readable file. *)
Definition sampleEnv : env :=
  {| appRootPath := "/app";
     dirname := "/app/node_modules/comedy/lib";
     execArgv := ["--harmony"; "--debug-brk=5858"];
     readFile := fun _ => None;
     JSON_parse := fun _ => None |}.

(** A process whose only readable file is [/app/actors.json], which holds
    [{ "worker": { "mode": "forked" } }]. *)
Definition defaultFileEnv : env :=
  {| appRootPath := "/app";
     dirname := "/app/node_modules/comedy/lib";
     execArgv := [];
     readFile := fun path =>
       if String.eqb path "/app/actors.json" then Some "actors" else None;
     JSON_parse := fun data =>
       if String.eqb data "actors"
       then Some (VObj {["worker" := VObj {["mode" := VStr "forked"]}]})
       else None |}.

(** [class Worker {}] *)
Definition Worker : behaviour :=
  BFunction "Worker" (Object ∅ (Some (classPrototype "Worker" ∅))).

(** [class Foo {}] *)
Definition Foo : behaviour :=
  BFunction "Foo" (Object ∅ (Some (classPrototype "Foo" ∅))).

(** An anonymous class, [class {}]. *)
Definition Anonymous : behaviour :=
  BFunction "" (Object ∅ (Some (classPrototype "" ∅))).

(** [{ echo: (x) => x }] *)
Definition echoRecord : behaviour :=
  BObject (objectLiteral {["echo" := FFunction "echo" VUndefined]}).

(** [{ foo: { mode: "forked", clusterSize: 3 } }] *)
Definition fooConfig : gmap string value :=
  {["foo" := VObj (<["mode" := VStr "forked"]>
                     {["clusterSize" := VNum 3]})]}.

(** [{ "": { mode: "forked" } }] *)
Definition emptyKeyConfig : gmap string value :=
  {["" := VObj {["mode" := VStr "forked"]}]}.

Definition systemWith (c : gmap string value) : ActorSystem.system :=
  ActorSystem.setConfig (ActorSystem.new VUndefined) (VObj c).




(** The levels as comedy numbers them. *)
Definition sampleLevels : LogLevelEnum :=
  {| Silent := 0; Error := 1; Warn := 2; Info := 3; Debug := 4 |}.

(** * Properties *)

(** ** The default system *)

Lemma default_unset (p : ActorSystem.process) :
  ActorSystem.defaultSystem p = None ->
  ActorSystem.default p = (None, p).
Proof. intros H. unfold ActorSystem.default. rewrite H. reflexivity. Qed.

(** Once the variable holds a system, every call constructs another one
    and returns it. *)
Lemma default_set_reallocates (p : ActorSystem.process) (r : nat) :
  ActorSystem.defaultSystem p = Some r ->
  fst (ActorSystem.default p) = Some (length (ActorSystem.systems p))
  /\ length (ActorSystem.systems (snd (ActorSystem.default p)))
     = S (length (ActorSystem.systems p)).
Proof.
  intros H. unfold ActorSystem.default. rewrite H. simpl.
  split; [reflexivity|]. rewrite length_app. simpl. lia.
Qed.

Lemma defaultCalls_initial (n : nat) :
  defaultCalls n ActorSystem.initialProcess = ActorSystem.initialProcess.
Proof.
  induction n as [|n IH]; cbn [defaultCalls]; [reflexivity|].
  rewrite default_unset by reflexivity. exact IH.
Qed.

(** C8: the accessor is meant to construct the default system on its first
    call and to return that instance from then on.  In a process whose
    module was just loaded it does neither: after any number of calls the
    next one still returns [undefined], no system has been constructed and
    the variable is still unset. *)
Theorem default_never_initializes (n : nat) :
  ActorSystem.default (defaultCalls n ActorSystem.initialProcess)
  = (None, ActorSystem.initialProcess)
  /\ ActorSystem.systems (defaultCalls n ActorSystem.initialProcess) = [].
Proof.
  rewrite defaultCalls_initial. split; reflexivity.
Qed.

(** ** The logger configuration *)

Section SetCurrent.

Variable LogLevel : LogLevelEnum.
Variable self : LoggerConfiguration.t.

(** Every assignment emits one [configChange], with the configuration
    it stored. *)
Lemma set_current_emits_once (v : option (gmap string value)) :
  LoggerConfiguration.emitted (LoggerConfiguration.set_current LogLevel self v)
  = LoggerConfiguration.emitted self
    ++ [(LoggerConfiguration.CONFIG_CHANGE,
         LoggerConfiguration._current
           (LoggerConfiguration.set_current LogLevel self v))].
Proof. reflexivity. Qed.

(** What is stored always passes the setter's own test:
    [typeof categories] is ["object"]. *)
Lemma set_current_typeof_categories (v : option (gmap string value)) :
  exists c,
    LoggerConfiguration._current
      (LoggerConfiguration.set_current LogLevel self v) = Some c
    /\ typeOf (getField (VObj c) "categories") = "object".
Proof.
  unfold LoggerConfiguration.set_current. destruct v as [c|]; simpl.
  - destruct (String.eqb (typeOf (default VUndefined (c !! "categories")))
                         "object") eqn:E; simpl.
    + exists c. split; [reflexivity|]. simpl. by apply String.eqb_eq.
    + eexists. split; [reflexivity|]. simpl.
      unfold LoggerConfiguration.lodashExtend.
      rewrite lookup_union_l'; rewrite lookup_singleton_eq; [done|eauto].
  - eexists. split; [reflexivity|]. simpl.
    unfold LoggerConfiguration.lodashExtend.
    rewrite lookup_union_l'; rewrite lookup_singleton_eq; [done|eauto].
Qed.

(** An absent value, or one whose [categories] is a primitive other
    than [null], gets the default categories and keeps its other
    properties. *)
Lemma set_current_defaults (v : option (gmap string value)) :
  match v with
  | None => True
  | Some c => typeOf (getField (VObj c) "categories") <> "object"
  end ->
  LoggerConfiguration._current
    (LoggerConfiguration.set_current LogLevel self v)
  = Some (<["categories" := VObj {["Default" := VNum (Info LogLevel)]}]>
            (default ∅ v)).
Proof.
  unfold LoggerConfiguration.set_current. destruct v as [c|]; simpl.
  - intros H.
    destruct (String.eqb (typeOf (default VUndefined (c !! "categories")))
                         "object") eqn:E; simpl.
    + apply String.eqb_eq in E. contradiction.
    + unfold LoggerConfiguration.lodashExtend. simpl.
      by rewrite insert_union_singleton_l.
  - intros _. unfold LoggerConfiguration.lodashExtend. simpl.
    by rewrite insert_union_singleton_l.
Qed.

(** A record whose [categories] passes the test is stored as it is. *)
Lemma set_current_keeps (c : gmap string value) :
  typeOf (getField (VObj c) "categories") = "object" ->
  LoggerConfiguration._current
    (LoggerConfiguration.set_current LogLevel self (Some c)) = Some c.
Proof.
  intros H. unfold LoggerConfiguration.set_current. rewrite H. reflexivity.
Qed.

End SetCurrent.

(** C10: the setter is meant to leave a configuration whose [categories]
    is an object.  For the record [{ categories: null }] it does not:
    [typeof null] is ["object"], the default is not applied, and the value
    stored, by the setter and by the constructor alike, still has
    [categories: null]. *)
Theorem set_current_keeps_null_categories
    (LogLevel : LogLevelEnum) (self : LoggerConfiguration.t) :
  LoggerConfiguration._current
    (LoggerConfiguration.set_current LogLevel self
       (Some {["categories" := VNull]}))
  = Some {["categories" := VNull]}
  /\ LoggerConfiguration._current
       (LoggerConfiguration.new LogLevel (Some {["categories" := VNull]}))
     = Some {["categories" := VNull]}
  /\ isObject VNull = false.
Proof. repeat split. Qed.

(** ** The log wrapper *)

Section LogWrapperLevels.

Variable LogLevel : LogLevelEnum.

Lemma silent_state :
  LogWrapper.silent LogLevel
  = {| LogWrapper._category := "Default";
       LogWrapper._level := Silent LogLevel;
       LogWrapper.logger := [] |}.
Proof. reflexivity. Qed.

(** C9: [error] hands its message to the underlying logger whatever the
    level is, and changes nothing else.  A string message is handed over
    as it is; of an [Error] the message is handed over when the error is
    operational, and otherwise its stack, or its message when it has no
    stack.  The other methods do test the level: each emits when the
    level is at least its own, and leaves the logger as it is otherwise.
    When [Silent] lies below [Warn], [Info] and [Debug], the logger
    [silent()] returns, whose level is [Silent], has emitted nothing,
    [debug], [log], [info] and [warn] leave it as it is, and [error]
    still emits, for a string and for an [Error] alike. *)
Theorem error_ignores_level
    (Hwarn : Silent LogLevel < Warn LogLevel)
    (Hinfo : Silent LogLevel < Info LogLevel)
    (Hdebug : Silent LogLevel < Debug LogLevel) :
  (forall (self : LogWrapper.t) (msg : string + errorObject),
      LogWrapper.logger (LogWrapper.error self msg)
      = LogWrapper.logger self
        ++ [(LogError, LogWrapper.messageString msg)]
      /\ LogWrapper._level (LogWrapper.error self msg)
         = LogWrapper._level self
      /\ LogWrapper._category (LogWrapper.error self msg)
         = LogWrapper._category self)
  /\ (forall s : string, LogWrapper.messageString (inl s) = s)
  /\ (forall (m : string) (st : option string),
         LogWrapper.messageString
           (inr {| message := m; stack := st; isOperational := true |})
         = m)
  /\ (forall m st : string,
         LogWrapper.messageString
           (inr {| message := m; stack := Some st; isOperational := false |})
         = st)
  /\ (forall m : string,
         LogWrapper.messageString
           (inr {| message := m; stack := None; isOperational := false |})
         = m)
  /\ (forall (self : LogWrapper.t) (m : string),
         LogWrapper.debug LogLevel self m
         = (if bool_decide (Debug LogLevel <= LogWrapper._level self)
            then LogWrapper.call self LogDebug m else self)
         /\ LogWrapper.log LogLevel self m
            = (if bool_decide (Info LogLevel <= LogWrapper._level self)
               then LogWrapper.call self LogInfo m else self)
         /\ LogWrapper.info LogLevel self m
            = (if bool_decide (Info LogLevel <= LogWrapper._level self)
               then LogWrapper.call self LogInfo m else self)
         /\ LogWrapper.warn LogLevel self m
            = (if bool_decide (Warn LogLevel <= LogWrapper._level self)
               then LogWrapper.call self LogWarn m else self))
  /\ LogWrapper._level (LogWrapper.silent LogLevel) = Silent LogLevel
  /\ LogWrapper.logger (LogWrapper.silent LogLevel) = []
  /\ (forall m : string,
         LogWrapper.debug LogLevel (LogWrapper.silent LogLevel) m
         = LogWrapper.silent LogLevel
         /\ LogWrapper.log LogLevel (LogWrapper.silent LogLevel) m
            = LogWrapper.silent LogLevel
         /\ LogWrapper.info LogLevel (LogWrapper.silent LogLevel) m
            = LogWrapper.silent LogLevel
         /\ LogWrapper.warn LogLevel (LogWrapper.silent LogLevel) m
            = LogWrapper.silent LogLevel)
  /\ (forall m : string,
         LogWrapper.logger
           (LogWrapper.error (LogWrapper.silent LogLevel) (inl m))
         = [(LogError, m)])
  /\ (forall m st : string,
         LogWrapper.logger
           (LogWrapper.error (LogWrapper.silent LogLevel)
              (inr {| message := m; stack := Some st;
                      isOperational := false |}))
         = [(LogError, st)]).
Proof.
  split; [intros self msg; repeat split; reflexivity|].
  do 4 (split; [reflexivity|]).
  split.
  { intros self m.
    unfold LogWrapper.debug, LogWrapper.log, LogWrapper.info,
      LogWrapper.warn.
    repeat split;
      match goal with
      | |- context [?a <=? ?b] =>
          destruct (Z.leb_spec a b);
          [rewrite bool_decide_eq_true_2 by assumption
          |rewrite bool_decide_eq_false_2 by lia];
          reflexivity
      end. }
  do 2 (split; [reflexivity|]).
  split; [|split; reflexivity].
  intros m. rewrite silent_state.
  unfold LogWrapper.debug, LogWrapper.log, LogWrapper.info, LogWrapper.warn.
  cbn [LogWrapper._level].
  apply Z.leb_gt in Hwarn, Hinfo, Hdebug.
  rewrite Hwarn, Hinfo, Hdebug. repeat split.
Qed.

End LogWrapperLevels.

Lemma error_ignores_level_witness :
  Silent sampleLevels < Warn sampleLevels
  /\ LogWrapper.logger
       (LogWrapper.error (LogWrapper.silent sampleLevels) (inl "failed"))
     = [(LogError, "failed")]
  /\ LogWrapper.warn sampleLevels (LogWrapper.silent sampleLevels) "careful"
     = LogWrapper.silent sampleLevels.
Proof.
  assert (Hw : Silent sampleLevels < Warn sampleLevels) by (simpl; lia).
  assert (Hi : Silent sampleLevels < Info sampleLevels) by (simpl; lia).
  assert (Hd : Silent sampleLevels < Debug sampleLevels) by (simpl; lia).
  destruct (error_ignores_level sampleLevels Hw Hi Hd)
    as (_ & _ & _ & _ & _ & _ & _ & _ & Hquiet & Herror & _).
  split; [exact Hw|]. split; [apply Herror|]. apply Hquiet.
Defined.

(** ** The module loader helper *)




(** ** Name resolution *)

(** A record of handlers written as an object literal has no [name] and
    no [getName], but it has a constructor, [Object]: its name is not the
    empty string. *)
Lemma actorName_plain_record_counterexample :
  getMember (objectLiteral {["echo" := FFunction "echo" VUndefined]}) "name"
  = None
  /\ getMember (objectLiteral {["echo" := FFunction "echo" VUndefined]})
       "getName" = None
  /\ ActorSystem._actorName echoRecord = Returned (VStr "Object")
  /\ ActorSystem._actorName echoRecord <> Returned (VStr "").
Proof.
  split; [reflexivity|]. split; [reflexivity|].
  split; [reflexivity|discriminate].
Qed.

(** C5, amended: for a behaviour [B], instantiated if it is a function, the
    name is the [name] member when that is truthy (the value a call
    returns if it is a function); otherwise what [getName()] returns when
    [getName] is a function; otherwise the name of the constructor when
    there is one with a truthy name; otherwise the empty string.  A plain
    record written as an object literal, with no [name], [getName] or
    [constructor] of its own, resolves to [Object], the name of the
    constructor it inherits; an object with no prototype and no such
    members resolves to the empty string. *)
Theorem actorName_priority (B : behaviour) (behaviour0 : object)
    (Hinstance : ActorSystem.instantiate B = Some behaviour0) :
  (forall f, getMember behaviour0 "name" = Some f ->
             fieldTruthy (Some f) = true ->
             ActorSystem._actorName B
             = Returned (match f with
                         | FData v => v
                         | FFunction _ r => r
                         end))
  /\ (fieldTruthy (getMember behaviour0 "name") = false ->
      forall n r, getMember behaviour0 "getName" = Some (FFunction n r) ->
                  ActorSystem._actorName B = Returned r)
  /\ (fieldTruthy (getMember behaviour0 "name") = false ->
      fieldIsFunction (getMember behaviour0 "getName") = false ->
      forall n r, getMember behaviour0 "constructor" = Some (FFunction n r) ->
                  n <> "" ->
                  ActorSystem._actorName B = Returned (VStr n))
  /\ (fieldTruthy (getMember behaviour0 "name") = false ->
      fieldIsFunction (getMember behaviour0 "getName") = false ->
      (getMember behaviour0 "constructor" = None
       \/ exists r, getMember behaviour0 "constructor"
                    = Some (FFunction "" r)) ->
      ActorSystem._actorName B = Returned (VStr ""))
  /\ (forall own : gmap string field,
         own !! "name" = None -> own !! "getName" = None ->
         own !! "constructor" = None ->
         ActorSystem._actorName (BObject (objectLiteral own))
         = Returned (VStr "Object")
         /\ ActorSystem._actorName (BObject (Object own None))
            = Returned (VStr "")).
Proof.
  unfold ActorSystem._actorName. rewrite Hinstance.
  split; [|split; [|split; [|split]]].
  - intros f Hf Ht. unfold result. rewrite Hf, Ht. reflexivity.
  - intros Hname n r Hget. unfold result. rewrite Hname, Hget. reflexivity.
  - intros Hname Hget n r Hc Hn. rewrite Hname, Hget, Hc. simpl.
    destruct (String.eqb n "") eqn:E; [apply String.eqb_eq in E; done|].
    reflexivity.
  - intros Hname Hget [Hc|[r Hc]]; rewrite Hname, Hget, Hc; reflexivity.
  - intros own Hn Hg Hc. split.
    + simpl. rewrite Hn, Hg, Hc. reflexivity.
    + simpl. rewrite Hn, Hg, Hc. reflexivity.
Qed.

Lemma actorName_priority_witness :
  ActorSystem._actorName Foo = Returned (VStr "Foo")
  /\ ActorSystem._actorName Anonymous = Returned (VStr "").
Proof.
  split.
  - apply (proj1 (proj2 (proj2
             (actorName_priority Foo
                (Object ∅ (Some (classPrototype "Foo" ∅))) eq_refl)))
             eq_refl eq_refl "Foo" VUndefined eq_refl).
    discriminate.
  - apply (proj1 (proj2 (proj2 (proj2
             (actorName_priority Anonymous
                (Object ∅ (Some (classPrototype "" ∅))) eq_refl))))
             eq_refl eq_refl).
    right. exists VUndefined. reflexivity.
Defined.

(** ** Placement *)




(** The example of the specification, in full: the options are exactly
    [{ mode: "forked", clusterSize: 1 }] and the actor is forked. *)
Lemma createActor_config_precedence_example :
  ActorSystem.actorOptions (systemWith fooConfig) (VStr "Foo")
    (ActorSystem.orEmpty (VObj {["clusterSize" := VNum 1]}))
  = VObj (<["mode" := VStr "forked"]> {["clusterSize" := VNum 1]})
  /\ ActorSystem.createActor sampleStringGt (systemWith fooConfig) Foo None
       (VObj {["clusterSize" := VNum 1]})
     = Returned (PThen (CreateForked Foo None (VStr "Foo"))).
Proof. split; reflexivity. Qed.

(** For the mode ["remote"] [createActor] throws nothing: it returns a
    promise, and the error is what that promise is rejected with. *)
Lemma createActor_unknown_mode_counterexample :
  ActorSystem.createActor sampleStringGt (ActorSystem.new VUndefined) Foo
    None (VObj {["mode" := VStr "remote"]})
  = Returned (PThrow (MkError "Unknown actor mode: remote"))
  /\ forall e : exn,
      ActorSystem.createActor sampleStringGt (ActorSystem.new VUndefined)
        Foo None (VObj {["mode" := VStr "remote"]}) <> Thrown e.
Proof. split; [reflexivity|]. intros e. discriminate. Qed.

(** C2, amended: when the cluster size of the options [createActor] has
    determined is not greater than 1 and their mode is not a falsy value
    and is neither ["in-memory"] nor ["forked"], the placement returns a
    promise
    rejected with an error and throws nothing; for a mode that is a
    string the error is the unknown-mode error, which names the mode.
    So does [createActor] for a behaviour whose name resolves to a
    string that begins with an ASCII character, and which gives these
    options.  Greater than 1 is: a number above 1, or a string that the
    host's comparison finds so; [undefined], [null] and the booleans are
    not.  The cluster size and the mode are primitive values: the
    conversion of an object or an array goes through its [toString],
    which its data can shadow.  With such a cluster size, a falsy mode
    and the mode ["in-memory"] create the actor in memory, and the mode
    ["forked"] forks it. *)
Theorem createActor_unknown_mode
    (stringGt : string -> Z -> bool) (B : behaviour)
    (parent : option actor) (actorName : value) (o : value)
    (Hsize : isObject (getField o "clusterSize") = false)
    (Hcluster : jsGt stringGt (getField o "clusterSize") 1 = false)
    (Hmode : isObject (getField o "mode") = false)
    (Htruthy : getField o "mode" ∉ falsyValues)
    (Hmemory : getField o "mode" <> VStr "in-memory")
    (Hforked : getField o "mode" <> VStr "forked") :
  (exists text : string,
      ActorSystem.placeActor stringGt B parent actorName o
      = Returned (PThrow (MkError text))
      /\ (forall mode : string,
             getField o "mode" = VStr mode ->
             text = "Unknown actor mode: " +:+ mode)
      /\ forall (sys : ActorSystem.system) (options : value),
           ActorSystem._actorName B = Returned actorName ->
           isString actorName = true ->
           asciiFirst (makeString actorName) ->
           ActorSystem.actorOptions sys actorName
             (ActorSystem.orEmpty options) = o ->
           ActorSystem.createActor stringGt sys B parent options
           = Returned (PThrow (MkError text)))
  /\ (forall e : exn,
         ActorSystem.placeActor stringGt B parent actorName o <> Thrown e)
  /\ ((forall x : Z, jsGt stringGt (VNum x) 1 = true <-> 1 < x)
      /\ jsGt stringGt VUndefined 1 = false
      /\ jsGt stringGt VNull 1 = false
      /\ (forall b : bool, jsGt stringGt (VBool b) 1 = false)
      /\ (forall s : string, jsGt stringGt (VStr s) 1 = stringGt s 1))
  /\ (forall o' : value,
         isObject (getField o' "clusterSize") = false ->
         jsGt stringGt (getField o' "clusterSize") 1 = false ->
         ((getField o' "mode" ∈ falsyValues
           \/ getField o' "mode" = VStr "in-memory") ->
          ActorSystem.placeActor stringGt B parent actorName o'
          = Returned (PThen (CreateInMemory B parent actorName)))
         /\ (getField o' "mode" = VStr "forked" ->
             ActorSystem.placeActor stringGt B parent actorName o'
             = Returned (PThen (CreateForked B parent actorName)))).
Proof.
  assert (Hplace : ActorSystem.placeActor stringGt B parent actorName o
                   = Returned
                       (PThrow (MkError ("Unknown actor mode: "
                                         +:+ toStr (getField o "mode"))))).
  { assert (Ht : truthy (getField o "mode") = true).
    { unfold falsyValues in Htruthy.
      rewrite !elem_of_cons, elem_of_nil in Htruthy.
      destruct (getField o "mode") as [| |[]|n|m|items|props];
        try reflexivity; try (exfalso; apply Htruthy; auto 10; fail).
      - cbn [truthy]. destruct (Z.eqb_spec n 0) as [->|]; [|reflexivity].
        exfalso. apply Htruthy. auto 10.
      - destruct m; [|reflexivity]. exfalso. apply Htruthy. auto 10. }
    unfold ActorSystem.placeActor, ActorSystem.switchMode.
    rewrite Hcluster, Ht.
    destruct (getField o "mode") as [| |b|n|m|items|props];
      try reflexivity.
    cbn [strictEqStr].
    destruct (String.eqb m "in-memory") eqn:E1;
      [apply String.eqb_eq in E1; congruence|].
    destruct (String.eqb m "forked") eqn:E2;
      [apply String.eqb_eq in E2; congruence|].
    reflexivity. }
  split; [|split; [|split]].
  - eexists. split; [exact Hplace|]. split.
    + intros mode ->. reflexivity.
    + intros sys options Hname _ _ Hopts. unfold ActorSystem.createActor.
      rewrite Hname. cbv zeta. rewrite Hopts. exact Hplace.
  - intros e. rewrite Hplace. discriminate.
  - split; [intros x; apply Z.ltb_lt|].
    split; [reflexivity|]. split; [reflexivity|].
    split; [intros []; reflexivity|reflexivity].
  - intros o' _ Hgt.
    unfold ActorSystem.placeActor, ActorSystem.switchMode.
    rewrite Hgt. split.
    + intros [Hfalsy | ->]; [|reflexivity].
      unfold falsyValues in Hfalsy.
      rewrite !elem_of_cons, elem_of_nil in Hfalsy.
      destruct Hfalsy as [-> | [-> | [-> | [-> | [-> | []]]]]]; reflexivity.
    + intros ->. reflexivity.
Qed.

Lemma createActor_unknown_mode_witness :
  ActorSystem.createActor sampleStringGt (systemWith fooConfig) Foo None
    (VObj (<["mode" := VStr "remote"]> {["clusterSize" := VNum 1]}))
  = Returned (PThrow (MkError "Unknown actor mode: remote")).
Proof.
  set (o := VObj (<["mode" := VStr "remote"]> {["clusterSize" := VNum 1]})).
  assert (Hsize : isObject (getField o "clusterSize") = false)
    by reflexivity.
  assert (Hcluster : jsGt sampleStringGt (getField o "clusterSize") 1 = false)
    by reflexivity.
  assert (Hmode : isObject (getField o "mode") = false) by reflexivity.
  assert (Htruthy : getField o "mode" ∉ falsyValues).
  { unfold falsyValues. rewrite !elem_of_cons, elem_of_nil.
    intros [H | [H | [H | [H | [H | []]]]]]; discriminate H. }
  assert (Hmemory : getField o "mode" <> VStr "in-memory") by discriminate.
  assert (Hforked : getField o "mode" <> VStr "forked") by discriminate.
  destruct (createActor_unknown_mode sampleStringGt Foo None (VStr "Foo") o
              Hsize Hcluster Hmode Htruthy Hmemory Hforked)
    as [[text (_ & Htext & Hcreate)] _].
  rewrite (Hcreate (systemWith fooConfig) o); [|reflexivity..].
  rewrite (Htext "remote"); reflexivity.
Defined.

(** ** The forked spawn handshake *)




(** ** Loading the configuration *)

(** When the path cannot be read and the default file cannot either, the
    two messages go to [info]; [warn] is not called. *)
Lemma loadConfiguration_info_counterexample :
  (fun r => (List.map fst (ActorSystem.log (fst r)), snd r))
    <$> ActorSystem._loadConfiguration 2 sampleEnv
          (ActorSystem.new VUndefined) (VStr "/nonexistent")
  = Some ([LogInfo; LogInfo], Fulfilled tt)
  /\ ~ In LogWarn [LogInfo; LogInfo].
Proof.
  split; [reflexivity|].
  intros [H|[H|[]]]; discriminate H.
Qed.

(** C4, amended: loading the configuration always settles, fulfilled (two
    levels of calls are enough), and all it logs are [info] messages.  A
    data record is used directly.  A path whose file is read and parsed
    gives the configuration; if the read or the parse fails, an [info]
    message says so and the default path is tried, as it is when the
    argument is neither a record nor a string; if that fails too, another
    [info] message says so and the configuration is left as it was. *)
Theorem loadConfiguration_never_rejects
    (e : env) (sys : ActorSystem.system) (config : value) (fuel : nat)
    (Hfuel : (2 <= fuel)%nat) :
  exists (sys' : ActorSystem.system) (messages : list string),
    ActorSystem._loadConfiguration fuel e sys config
    = Some (sys', Fulfilled tt)
    /\ ActorSystem.log sys'
       = ActorSystem.log sys ++ List.map (pair LogInfo) messages
    /\ (isObject config = true -> ActorSystem.config sys' = config)
    /\ (forall path : string, config = VStr path ->
        match ActorSystem.readJSON e path with
        | Some data =>
            ActorSystem.config sys' = data
            /\ messages = ["Using actor configuration file: " +:+ path]
        | None =>
            match ActorSystem.readJSON e (ActorSystem.defaultPath e) with
            | Some data =>
                ActorSystem.config sys' = data
                /\ messages
                   = ["Failed to load actor configuration file " +:+ path
                      +:+ ", will try default path: "
                      +:+ ActorSystem.defaultPath e;
                      "Using actor configuration file: "
                      +:+ ActorSystem.defaultPath e]
            | None =>
                ActorSystem.config sys' = ActorSystem.config sys
                /\ messages
                   = ["Failed to load actor configuration file " +:+ path
                      +:+ ", will try default path: "
                      +:+ ActorSystem.defaultPath e;
                      "Failed to load actor configuration file "
                      +:+ ActorSystem.defaultPath e
                      +:+ ", no actor configuration will be used."]
            end
        end)
    /\ (isObject config = false -> isString config = false ->
        match ActorSystem.readJSON e (ActorSystem.defaultPath e) with
        | Some data =>
            ActorSystem.config sys' = data
            /\ messages = ["Using actor configuration file: "
                           +:+ ActorSystem.defaultPath e]
        | None =>
            ActorSystem.config sys' = ActorSystem.config sys
            /\ messages = ["Failed to load actor configuration file "
                           +:+ ActorSystem.defaultPath e
                           +:+ ", no actor configuration will be used."]
        end).
Proof.
  destruct fuel as [|[|fuel]]; [lia|lia|clear Hfuel].
  assert (Hdefault : forall s : ActorSystem.system,
    exists (s' : ActorSystem.system) (ms : list string),
      ActorSystem._loadConfiguration (S fuel) e s VUndefined
      = Some (s', Fulfilled tt)
      /\ ActorSystem.log s' = ActorSystem.log s ++ List.map (pair LogInfo) ms
      /\ match ActorSystem.readJSON e (ActorSystem.defaultPath e) with
         | Some data =>
             ActorSystem.config s' = data
             /\ ms = ["Using actor configuration file: "
                      +:+ ActorSystem.defaultPath e]
         | None =>
             ActorSystem.config s' = ActorSystem.config s
             /\ ms = ["Failed to load actor configuration file "
                      +:+ ActorSystem.defaultPath e
                      +:+ ", no actor configuration will be used."]
         end).
  { intros s. cbn [ActorSystem._loadConfiguration isObject].
    destruct (ActorSystem.readJSON e (ActorSystem.defaultPath e)).
    - eexists.
      exists ["Using actor configuration file: "
              +:+ ActorSystem.defaultPath e].
      repeat split; reflexivity.
    - eexists.
      exists ["Failed to load actor configuration file "
              +:+ ActorSystem.defaultPath e
              +:+ ", no actor configuration will be used."].
      repeat split; reflexivity. }
  destruct config as [| |b|n|path|items|props].
  5: {
    cbn [ActorSystem._loadConfiguration isObject].
    destruct (ActorSystem.readJSON e path) as [data|] eqn:Hread.
    - eexists; exists ["Using actor configuration file: " +:+ path].
      split; [reflexivity|]. split; [reflexivity|].
      split; [discriminate|]. split; [|discriminate].
      intros path' [= <-]. rewrite Hread. split; reflexivity.
    - destruct (Hdefault
                  (ActorSystem.logInfo sys
                     ("Failed to load actor configuration file " +:+ path
                      +:+ ", will try default path: "
                      +:+ ActorSystem.defaultPath e)))
        as (s' & ms & Hrun & Hlog & Hcase).
      exists s'.
      exists (("Failed to load actor configuration file " +:+ path
               +:+ ", will try default path: "
               +:+ ActorSystem.defaultPath e) :: ms).
      split; [exact Hrun|].
      split; [rewrite Hlog; simpl; rewrite <- app_assoc; reflexivity|].
      split; [discriminate|]. split; [|discriminate].
      intros path' [= <-]. rewrite Hread.
      destruct (ActorSystem.readJSON e (ActorSystem.defaultPath e));
        destruct Hcase as [Hc ->]; (split; [exact Hc|reflexivity]).
  }
  1-4: (destruct (Hdefault sys) as (s' & ms & Hrun & Hlog & Hcase);
        exists s'; exists ms;
        (split; [exact Hrun|]); (split; [exact Hlog|]);
        (split; [discriminate|]); (split; [discriminate|]);
        intros _ _; exact Hcase).
  all: cbn [ActorSystem._loadConfiguration isObject];
    destruct (ActorSystem.forked sys) eqn:Hforked;
    eexists;
    [exists [] | exists ["Using programmatic actor configuration."]];
    (split; [cbn [ActorSystem.setConfig ActorSystem.forked]; rewrite Hforked; reflexivity|]);
    (split; [simpl; rewrite ?app_nil_r; reflexivity|]);
    (split; [reflexivity|]);
    (split; [discriminate|]); discriminate.
Qed.

Lemma loadConfiguration_never_rejects_witness :
  exists sys' : ActorSystem.system,
    ActorSystem._loadConfiguration 2 sampleEnv (ActorSystem.new VUndefined)
      (VStr "/nonexistent") = Some (sys', Fulfilled tt)
    /\ ActorSystem.config sys' = VUndefined.
Proof.
  destruct (loadConfiguration_never_rejects sampleEnv
              (ActorSystem.new VUndefined) (VStr "/nonexistent") 2
              (le_n 2))
    as (sys' & messages & Hrun & _ & _ & Hpath & _).
  exists sys'. split; [exact Hrun|].
  exact (proj1 (Hpath "/nonexistent" eq_refl)).
Defined.

(** With a path that cannot be read and a default file that can, the
    system ends up with the default file's configuration, and an actor
    it names is then forked. *)
Lemma loadConfiguration_fallback_example :
  exists sys' : ActorSystem.system,
    ActorSystem._loadConfiguration 2 defaultFileEnv
      (ActorSystem.new VUndefined) (VStr "/nonexistent")
    = Some (sys', Fulfilled tt)
    /\ ActorSystem.config sys'
       = VObj {["worker" := VObj {["mode" := VStr "forked"]}]}
    /\ ActorSystem.createActor sampleStringGt sys' Worker (Some RootActor)
         VUndefined
       = Returned (PThen (CreateForked Worker (Some RootActor)
                            (VStr "Worker"))).
Proof. eexists. split; [reflexivity|]. split; reflexivity. Qed.

(** ** Debug ports of forked children *)

Section Decimal.

Lemma spanDigits_string_of_uint (d : Decimal.uint) :
  spanDigits (NilEmpty.string_of_uint d) = (NilEmpty.string_of_uint d, "").
Proof.
  induction d as [|d IH|d IH|d IH|d IH|d IH|d IH|d IH|d IH|d IH|d IH];
    [reflexivity|..];
    cbn [NilEmpty.string_of_uint spanDigits];
    rewrite IH; reflexivity.
Qed.

Lemma digitsFrom_pos (d : Decimal.uint) (acc : positive) :
  digitsFrom (N.pos acc) (NilEmpty.string_of_uint d)
  = N.pos (Pos.of_uint_acc d acc).
Proof.
  revert acc.
  induction d as [|d IH|d IH|d IH|d IH|d IH|d IH|d IH|d IH|d IH|d IH];
    intros acc; [reflexivity|..];
    cbn [NilEmpty.string_of_uint digitsFrom Pos.of_uint_acc];
    rewrite <- IH; f_equal; unfold digitValue; simpl; lia.
Qed.

Lemma digitsFrom_zero (d : Decimal.uint) :
  digitsFrom 0%N (NilEmpty.string_of_uint d) = Pos.of_uint d.
Proof.
  induction d as [|d IH|d IH|d IH|d IH|d IH|d IH|d IH|d IH|d IH|d IH];
    [reflexivity|exact IH|..];
    cbn [NilEmpty.string_of_uint digitsFrom Pos.of_uint];
    apply digitsFrom_pos.
Qed.

(** Printing a number and reading it back gives the number. *)
Lemma parseInt_showN (n : N) : parseInt (showN n) = n.
Proof.
  unfold parseInt, showN. rewrite digitsFrom_zero.
  apply DecimalN.Unsigned.of_to.
Qed.

Lemma spanDigits_showN (n : N) : spanDigits (showN n) = (showN n, "").
Proof. apply spanDigits_string_of_uint. Qed.

Lemma showN_nonempty (n : N) : showN n <> "".
Proof.
  intros H. pose proof (parseInt_showN n) as Hn. rewrite H in Hn.
  cbn in Hn. subst n. discriminate H.
Qed.

Lemma stripPrefix_append (p s : string) : stripPrefix p (p +:+ s) = Some s.
Proof.
  induction p as [|a p IH]; [reflexivity|].
  change (String a p +:+ s) with (String a (p +:+ s)).
  cbn [stripPrefix]. rewrite Ascii.eqb_refl. exact IH.
Qed.

(** A rewritten argument is itself of the form [--debug-brk=<port>]. *)
Lemma matchDebugBrk_rewritten (n : N) :
  ActorSystem.matchDebugBrk ("--debug-brk=" +:+ showN n) = Some (showN n).
Proof.
  unfold ActorSystem.matchDebugBrk.
  rewrite stripPrefix_append, spanDigits_showN. cbn [fst].
  destruct (String.eqb (showN n) "") eqn:E; [|reflexivity].
  apply String.eqb_eq in E. by apply showN_nonempty in E.
Qed.

End Decimal.

Section DebugPorts.

Lemma rewriteArg_port (arg digits : string) (counter : N) :
  ActorSystem.matchDebugBrk arg = Some digits ->
  ActorSystem.rewriteArg arg counter
  = ("--debug-brk=" +:+ showN (parseInt digits + counter),
     (counter + 1)%N).
Proof. intros H. unfold ActorSystem.rewriteArg. rewrite H. reflexivity. Qed.

Lemma rewriteArg_other (arg : string) (counter : N) :
  ActorSystem.matchDebugBrk arg = None ->
  ActorSystem.rewriteArg arg counter = (arg, counter).
Proof. intros H. unfold ActorSystem.rewriteArg. rewrite H. reflexivity. Qed.

(** The counter after a spawn: one more per debug argument. *)
Lemma mapExecArgv_counter (args : list string) (counter : N) :
  snd (ActorSystem.mapExecArgv args counter)
  = (counter + N.of_nat (length (debugPortsOf args)))%N.
Proof.
  revert counter. induction args as [|arg rest IH]; intros counter.
  - simpl. lia.
  - cbn [ActorSystem.mapExecArgv debugPortsOf omap list_omap].
    fold (debugPortsOf rest).
    destruct (ActorSystem.matchDebugBrk arg) as [digits|] eqn:Hm.
    + rewrite (rewriteArg_port _ _ _ Hm).
      specialize (IH (counter + 1)%N).
      destruct (ActorSystem.mapExecArgv rest (counter + 1)) as [r c].
      simpl in *. lia.
    + rewrite (rewriteArg_other _ _ Hm).
      specialize (IH counter).
      destruct (ActorSystem.mapExecArgv rest counter) as [r c].
      simpl in *. lia.
Qed.

(** Argument by argument: the one at position [i] is rewritten with the
    counter advanced by the debug arguments before it, or forwarded. *)
Lemma mapExecArgv_lookup (args : list string) (counter : N)
    (i : nat) (arg : string) :
  args !! i = Some arg ->
  fst (ActorSystem.mapExecArgv args counter) !! i
  = Some (match ActorSystem.matchDebugBrk arg with
          | Some digits =>
              "--debug-brk="
              +:+ showN (parseInt digits
                         + (counter
                            + N.of_nat (length (debugPortsOf (take i args)))))
          | None => arg
          end).
Proof.
  revert counter i. induction args as [|a rest IH]; intros counter i Hi.
  - discriminate Hi.
  - cbn [ActorSystem.mapExecArgv].
    destruct i as [|i].
    + injection Hi as ->.
      destruct (ActorSystem.matchDebugBrk arg) as [digits|] eqn:Hm.
      * rewrite (rewriteArg_port _ _ _ Hm).
        destruct (ActorSystem.mapExecArgv rest (counter + 1)) as [r c].
        simpl. do 3 f_equal. lia.
      * rewrite (rewriteArg_other _ _ Hm).
        destruct (ActorSystem.mapExecArgv rest counter) as [r c].
        reflexivity.
    + rewrite lookup_cons in Hi.
      cbn [take debugPortsOf omap list_omap]. fold (debugPortsOf (take i rest)).
      destruct (ActorSystem.matchDebugBrk a) as [digits|] eqn:Hm.
      * rewrite (rewriteArg_port _ _ _ Hm).
        specialize (IH (counter + 1)%N i Hi).
        destruct (ActorSystem.mapExecArgv rest (counter + 1)) as [r c].
        cbn [fst] in *. rewrite lookup_cons, IH.
        destruct (ActorSystem.matchDebugBrk arg); [|reflexivity].
        simpl. do 3 f_equal. lia.
      * rewrite (rewriteArg_other _ _ Hm).
        specialize (IH counter i Hi).
        destruct (ActorSystem.mapExecArgv rest counter) as [r c].
        cbn [fst] in *. rewrite lookup_cons, IH. reflexivity.
Qed.

(** The ports after the rewrite: the [j]-th port has grown by the
    counter plus [j]. *)
Lemma mapExecArgv_ports (args : list string) (counter : N) :
  debugPortsOf (fst (ActorSystem.mapExecArgv args counter))
  = imap (fun j port => (port + (counter + N.of_nat j))%N)
         (debugPortsOf args).
Proof.
  revert counter. induction args as [|a rest IH]; intros counter.
  - reflexivity.
  - cbn [ActorSystem.mapExecArgv].
    destruct (ActorSystem.matchDebugBrk a) as [digits|] eqn:Hm.
    + rewrite (rewriteArg_port _ _ _ Hm).
      specialize (IH (counter + 1)%N).
      destruct (ActorSystem.mapExecArgv rest (counter + 1)) as [r c].
      cbn [fst] in *.
      cbn [debugPortsOf omap list_omap].
      fold (debugPortsOf r). fold (debugPortsOf rest).
      rewrite matchDebugBrk_rewritten, Hm. cbn [fmap option_fmap option_map].
      rewrite parseInt_showN, IH. cbn [imap].
      f_equal; [f_equal; lia|].
      apply imap_ext. intros j port _. simpl. lia.
    + rewrite (rewriteArg_other _ _ Hm).
      specialize (IH counter).
      destruct (ActorSystem.mapExecArgv rest counter) as [r c].
      cbn [fst] in *.
      cbn [debugPortsOf omap list_omap].
      fold (debugPortsOf r). fold (debugPortsOf rest).
      rewrite Hm. cbn [fmap option_fmap option_map]. exact IH.
Qed.

End DebugPorts.

Section DebugArgument.

Lemma stripPrefix_Some (p s r : string) :
  stripPrefix p s = Some r <-> s = p +:+ r.
Proof.
  split; [|intros ->; apply stripPrefix_append].
  revert s. induction p as [|a p IH]; intros s H.
  - injection H as ->. reflexivity.
  - destruct s as [|b s]; [discriminate|]. cbn [stripPrefix] in H.
    destruct (Ascii.eqb a b) eqn:E; [|discriminate].
    apply Ascii.eqb_eq in E. subst b.
    change (String a p +:+ r) with (String a (p +:+ r)).
    f_equal. by apply IH.
Qed.

Lemma spanDigits_split (s : string) :
  s = fst (spanDigits s) +:+ snd (spanDigits s)
  /\ digitsOnly (fst (spanDigits s))
  /\ noLeadingDigit (snd (spanDigits s)).
Proof.
  induction s as [|c s IH]; [repeat split; constructor|].
  cbn [spanDigits]. destruct (isDigit c) eqn:E.
  - destruct (spanDigits s) as [ds tl]. cbn [fst snd] in *.
    destruct IH as (Hs & Hd & Hn). split; [|split].
    + change (String c ds +:+ tl) with (String c (ds +:+ tl)).
      f_equal. exact Hs.
    + constructor; assumption.
    + exact Hn.
  - repeat split; [constructor|exact E].
Qed.

Lemma spanDigits_append (ds rest : string) :
  digitsOnly ds -> noLeadingDigit rest ->
  spanDigits (ds +:+ rest) = (ds, rest).
Proof.
  intros Hd Hn. induction ds as [|c ds IH].
  - destruct rest as [|c rest]; [reflexivity|].
    change ("" +:+ String c rest) with (String c rest).
    cbn [spanDigits]. cbn in Hn. rewrite Hn. reflexivity.
  - change (String c ds +:+ rest) with (String c (ds +:+ rest)).
    cbn [spanDigits]. unfold digitsOnly in Hd. cbn in Hd.
    apply Forall_cons in Hd as [Hc Hd].
    rewrite Hc, (IH Hd). reflexivity.
Qed.

End DebugArgument.

Section Numerals.

(** Which arguments carry a debug port, and the digits read from them. *)
Lemma matchDebugBrk_iff (arg digits : string) :
  ActorSystem.matchDebugBrk arg = Some digits
  <-> digits <> "" /\ digitsOnly digits
      /\ exists rest : string,
           arg = "--debug-brk=" +:+ digits +:+ rest /\ noLeadingDigit rest.
Proof.
  unfold ActorSystem.matchDebugBrk. split.
  - destruct (stripPrefix "--debug-brk=" arg) as [tl|] eqn:Hp;
      [|discriminate].
    apply stripPrefix_Some in Hp.
    destruct (spanDigits_split tl) as (Htl & Hd & Hn).
    destruct (String.eqb (fst (spanDigits tl)) "") eqn:E; [discriminate|].
    intros [= <-]. split; [|split; [exact Hd|]].
    + intros H0. rewrite H0 in E. discriminate E.
    + exists (snd (spanDigits tl)). split; [|exact Hn].
      rewrite <- Htl. exact Hp.
  - intros (Hne & Hd & rest & -> & Hn).
    rewrite stripPrefix_append, (spanDigits_append _ _ Hd Hn). cbn [fst].
    destruct (String.eqb digits "") eqn:E; [|reflexivity].
    by apply String.eqb_eq in E.
Qed.

Lemma isDigit_decimalDigits (c : ascii) :
  isDigit c = true <-> c ∈ decimalDigits.
Proof.
  assert (H : isDigit c = bool_decide (c ∈ decimalDigits)).
  { destruct c as [[] [] [] [] [] [] [] []]; vm_compute; reflexivity. }
  rewrite H. apply bool_decide_eq_true.
Qed.

Lemma digitsFrom_snoc (ds : string) (c : ascii) (acc : N) :
  digitsFrom acc (ds +:+ String c "")
  = (10 * digitsFrom acc ds + digitValue c)%N.
Proof.
  revert acc. induction ds as [|d ds IH]; intros acc; [reflexivity|].
  change (String d ds +:+ String c "") with (String d (ds +:+ String c "")).
  cbn [digitsFrom]. apply IH.
Qed.

(** Reading digits is reading in base ten: a further digit multiplies
    by ten and adds its rank among the digits. *)
Lemma parseInt_snoc (ds : string) (c : ascii) (i : nat) :
  decimalDigits !! i = Some c ->
  parseInt (ds +:+ String c "") = (10 * parseInt ds + N.of_nat i)%N.
Proof.
  intros Hi. unfold parseInt. rewrite digitsFrom_snoc. f_equal.
  do 10 (destruct i as [|i]; [injection Hi as <-; reflexivity|]).
  discriminate Hi.
Qed.

Lemma showN_digitsOnly (n : N) : digitsOnly (showN n).
Proof.
  pose proof (spanDigits_split (showN n)) as (_ & H & _).
  by rewrite spanDigits_showN in H.
Qed.

(** A number other than 0 is printed without a leading zero. *)
Lemma showN_no_leading_zero (n : N) :
  n <> 0%N -> first (showN n) <> Some "0"%char.
Proof.
  intros Hn Hfirst. unfold showN in Hfirst.
  pose proof (DecimalN.Unsigned.to_of (N.to_uint n)) as Hnorm.
  rewrite DecimalN.Unsigned.of_to in Hnorm.
  destruct (N.to_uint n) as [|u|u|u|u|u|u|u|u|u|u] eqn:Hd;
    try discriminate Hfirst.
  rewrite DecimalFacts.unorm_D0 in Hnorm.
  assert (Hnil : u <> Decimal.Nil).
  { intros ->. apply Hn. rewrite <- (DecimalN.Unsigned.of_to n), Hd.
    reflexivity. }
  pose proof (DecimalFacts.nb_digits_unorm u Hnil) as Hlen.
  rewrite <- Hnorm in Hlen. cbn [Decimal.nb_digits] in Hlen. lia.
Qed.

End Numerals.

Section ForkedChildren.

Lemma forkWorker_execArgv (e : env) (sys : ActorSystem.system)
    (B : behaviour) :
  forkExecArgv (fst (ActorSystem.forkWorker e sys B))
  = fst (ActorSystem.mapExecArgv (execArgv e)
           (ActorSystem.debugPortCounter sys))
  /\ ActorSystem.debugPortCounter (snd (ActorSystem.forkWorker e sys B))
     = snd (ActorSystem.mapExecArgv (execArgv e)
              (ActorSystem.debugPortCounter sys)).
Proof.
  unfold ActorSystem.forkWorker.
  destruct (ActorSystem.mapExecArgv (execArgv e)
              (ActorSystem.debugPortCounter sys)) as [argv counter].
  split; reflexivity.
Qed.

Variable e : env.
Variable port : N.
Hypothesis Hone : debugPortsOf (execArgv e) = [port].

Lemma forkWorker_one_port (sys : ActorSystem.system) (B : behaviour) :
  debugPortsOf (forkExecArgv (fst (ActorSystem.forkWorker e sys B)))
  = [(port + ActorSystem.debugPortCounter sys)%N]
  /\ ActorSystem.debugPortCounter (snd (ActorSystem.forkWorker e sys B))
     = (ActorSystem.debugPortCounter sys + 1)%N.
Proof.
  destruct (forkWorker_execArgv e sys B) as [-> ->].
  rewrite mapExecArgv_ports, mapExecArgv_counter, Hone.
  split; [cbn [imap]; do 2 f_equal; lia|reflexivity].
Qed.

(** The ports of the children of successive spawns, in order. *)
Lemma forkWorkers_ports (Bs : list behaviour) (sys : ActorSystem.system) :
  concat ((fun w => debugPortsOf (forkExecArgv w))
            <$> fst (forkWorkers e sys Bs))
  = (fun k => (port + (ActorSystem.debugPortCounter sys + N.of_nat k))%N)
      <$> seq 0 (length Bs)
  /\ ActorSystem.debugPortCounter (snd (forkWorkers e sys Bs))
     = (ActorSystem.debugPortCounter sys + N.of_nat (length Bs))%N.
Proof.
  revert sys. induction Bs as [|B rest IH]; intros sys.
  - split; [reflexivity|]. simpl. lia.
  - cbn [forkWorkers].
    destruct (forkWorker_one_port sys B) as [Hport Hcounter].
    destruct (ActorSystem.forkWorker e sys B) as [w sys1].
    cbn [fst snd] in Hport, Hcounter.
    destruct (IH sys1) as [IHports IHcounter].
    destruct (forkWorkers e sys1 rest) as [ws sys2].
    cbn [fst snd] in *. split.
    + rewrite fmap_cons. cbn [concat]. rewrite Hport, IHports, Hcounter.
      cbn [length seq app]. rewrite fmap_cons. f_equal; [f_equal; lia|].
      rewrite <- fmap_S_seq, <- list_fmap_compose.
      apply list_fmap_ext. intros _ k _. simpl. lia.
    + rewrite IHcounter, Hcounter. cbn [length]. lia.
Qed.

Lemma forkWorkers_lookup (Bs : list behaviour) (sys : ActorSystem.system)
    (k : nat) (w : forkCall) :
  fst (forkWorkers e sys Bs) !! k = Some w ->
  debugPortsOf (forkExecArgv w)
  = [(port + (ActorSystem.debugPortCounter sys + N.of_nat k))%N].
Proof.
  revert sys k. induction Bs as [|B rest IH]; intros sys k Hk.
  - discriminate Hk.
  - cbn [forkWorkers] in Hk.
    destruct (forkWorker_one_port sys B) as [Hport Hcounter].
    destruct (ActorSystem.forkWorker e sys B) as [w1 sys1].
    cbn [fst snd] in Hport, Hcounter.
    specialize (IH sys1).
    destruct (forkWorkers e sys1 rest) as [ws sys2].
    cbn [fst] in *. rewrite lookup_cons in Hk. destruct k as [|k].
    + injection Hk as <-. rewrite Hport. do 2 f_equal. lia.
    + rewrite (IH k Hk), Hcounter. do 2 f_equal. lia.
Qed.

(** C7: the counter starts at 1.  The arguments a debug port is read
    from are those made of [--debug-brk=], one or more decimal digits,
    and a rest that does not start with a digit; the digits, read in
    base ten, are the port.  In every spawn each such argument becomes
    [--debug-brk=<port + counter>], the sum printed in base ten without
    leading zeros and the counter growing by one after each such
    argument, and every other argument is forwarded unchanged.  When the
    process has one such argument, the child of the [k]-th spawn gets
    the port plus the counter plus [k]: over any sequence of spawns the
    children's debug ports are pairwise distinct.  The sums are taken
    below 2^53, where the addition of JavaScript's numbers is exact. *)
Theorem debug_ports_distinct
    (sys : ActorSystem.system) (Behaviours : list behaviour)
    (Hexact : (port + (ActorSystem.debugPortCounter sys
                       + N.of_nat (length Behaviours)) < maxSafe)%N) :
  (forall options : value,
      ActorSystem.debugPortCounter (ActorSystem.new options) = 1%N)
  /\ (forall arg digits : string,
         ActorSystem.matchDebugBrk arg = Some digits
         <-> digits <> "" /\ digitsOnly digits
             /\ exists rest : string,
                  arg = "--debug-brk=" +:+ digits +:+ rest
                  /\ noLeadingDigit rest)
  /\ ((forall c : ascii, isDigit c = true <-> c ∈ decimalDigits)
      /\ parseInt "" = 0%N
      /\ (forall (ds : string) (c : ascii) (i : nat),
             decimalDigits !! i = Some c ->
             (10 * parseInt ds + N.of_nat i < maxSafe)%N ->
             parseInt (ds +:+ String c "")
             = (10 * parseInt ds + N.of_nat i)%N)
      /\ (forall n : N,
             (n < maxSafe)%N ->
             digitsOnly (showN n) /\ parseInt (showN n) = n
             /\ (n <> 0%N -> first (showN n) <> Some "0"%char))
      /\ showN 0 = "0")
  /\ (forall (e' : env) (sys' : ActorSystem.system) (B : behaviour)
             (i : nat) (arg : string),
         execArgv e' !! i = Some arg ->
         (forall digits : string,
             ActorSystem.matchDebugBrk arg = Some digits ->
             (parseInt digits
              + (ActorSystem.debugPortCounter sys'
                 + N.of_nat (length (debugPortsOf (take i (execArgv e')))))
              < maxSafe)%N) ->
         forkExecArgv (fst (ActorSystem.forkWorker e' sys' B)) !! i
         = Some
             (match ActorSystem.matchDebugBrk arg with
              | Some digits =>
                  "--debug-brk="
                  +:+ showN
                        (parseInt digits
                         + (ActorSystem.debugPortCounter sys'
                            + N.of_nat
                                (length
                                   (debugPortsOf (take i (execArgv e'))))))
              | None => arg
              end))
  /\ (forall (e' : env) (sys' : ActorSystem.system) (B : behaviour),
         (ActorSystem.debugPortCounter sys'
          + N.of_nat (length (debugPortsOf (execArgv e'))) < maxSafe)%N ->
         ActorSystem.debugPortCounter
           (snd (ActorSystem.forkWorker e' sys' B))
         = (ActorSystem.debugPortCounter sys'
            + N.of_nat (length (debugPortsOf (execArgv e'))))%N)
  /\ (forall (k : nat) (w : forkCall),
         fst (forkWorkers e sys Behaviours) !! k = Some w ->
         debugPortsOf (forkExecArgv w)
         = [(port + (ActorSystem.debugPortCounter sys + N.of_nat k))%N])
  /\ NoDup (concat ((fun w => debugPortsOf (forkExecArgv w))
                      <$> fst (forkWorkers e sys Behaviours))).
Proof.
  split; [reflexivity|].
  split; [apply matchDebugBrk_iff|].
  split.
  { split; [apply isDigit_decimalDigits|]. split; [reflexivity|].
    split; [intros ds c i Hi _; by apply parseInt_snoc|].
    split; [|reflexivity].
    intros n _. split; [apply showN_digitsOnly|].
    split; [apply parseInt_showN|apply showN_no_leading_zero]. }
  split.
  { intros e' sys' B i arg Hi _.
    rewrite (proj1 (forkWorker_execArgv e' sys' B)).
    by apply mapExecArgv_lookup. }
  split.
  { intros e' sys' B _.
    rewrite (proj2 (forkWorker_execArgv e' sys' B)).
    apply mapExecArgv_counter. }
  split; [intros k w; apply forkWorkers_lookup|].
  rewrite (proj1 (forkWorkers_ports Behaviours sys)).
  apply NoDup_fmap_2; [|apply NoDup_seq].
  intros j k Hjk. lia.
Qed.

End ForkedChildren.

Lemma debug_ports_distinct_witness :
  debugPortsOf (execArgv sampleEnv) = [5858%N]
  /\ (forall w : forkCall,
         fst (forkWorkers sampleEnv (ActorSystem.new VUndefined)
                [Foo; echoRecord; Foo]) !! 2%nat = Some w ->
         debugPortsOf (forkExecArgv w) = [5861%N])
  /\ NoDup (concat ((fun w => debugPortsOf (forkExecArgv w))
                      <$> fst (forkWorkers sampleEnv
                                 (ActorSystem.new VUndefined)
                                 [Foo; echoRecord; Foo]))).
Proof.
  assert (H : debugPortsOf (execArgv sampleEnv) = [5858%N]) by reflexivity.
  assert (Hexact : (5858 + (ActorSystem.debugPortCounter
                              (ActorSystem.new VUndefined)
                            + N.of_nat (length [Foo; echoRecord; Foo]))
                    < maxSafe)%N) by reflexivity.
  destruct (debug_ports_distinct sampleEnv 5858%N H
              (ActorSystem.new VUndefined) [Foo; echoRecord; Foo] Hexact)
    as (_ & _ & _ & _ & _ & Hk & Hdistinct).
  split; [exact H|]. split; [|exact Hdistinct].
  intros w Hw. exact (Hk 2%nat w Hw).
Defined.

(** The arguments three children in a row are started with. *)
Lemma forkWorkers_example :
  forkExecArgv <$> fst (forkWorkers sampleEnv (ActorSystem.new VUndefined)
                          [Foo; echoRecord; Foo])
  = [["--harmony"; "--debug-brk=5859"];
     ["--harmony"; "--debug-brk=5860"];
     ["--harmony"; "--debug-brk=5861"]].
Proof. reflexivity. Qed.

(** * Further properties *)

(** ** Placement without, and around, the configuration *)

Section PlacementOptions.

Lemma getField_extend_caller (obj : gmap string value) (entry : value)
    (o : gmap string value) (k : string) (v : value) :
  o !! k = Some v ->
  getField (VObj (extend obj [entry; VObj o])) k = v.
Proof.
  intros H. unfold extend. simpl.
  by rewrite (lookup_union_Some_l _ _ _ _ H).
Qed.

Lemma actorOptions_caller_key (sys : ActorSystem.system) (name : value)
    (o : gmap string value) (k : string) (v : value) :
  o !! k = Some v ->
  getField (ActorSystem.actorOptions sys name (VObj o)) k = v.
Proof.
  intros H. unfold ActorSystem.actorOptions.
  destruct (truthy (ActorSystem.config sys) && truthy name).
  - by apply getField_extend_caller.
  - simpl. by rewrite H.
Qed.

Lemma orEmpty_object (o : gmap string value) :
  ActorSystem.orEmpty (VObj o) = VObj o.
Proof. reflexivity. Qed.

Lemma toLowerCase_not_upper (c : ascii) : isUpper (toLowerCase c) = false.
Proof.
  destruct c as [[] [] [] [] [] [] [] []]; reflexivity.
Qed.

Lemma decapitalize_first_not_upper (s : string) (c : ascii) :
  first (decapitalize s) = Some c -> isUpper c = false.
Proof.
  destruct s as [|a rest]; [discriminate|].
  intros [= <-]. apply toLowerCase_not_upper.
Qed.

End PlacementOptions.

(** X1: A cluster is one level deep.  When [createActor], with the options
    it has determined, clusterizes, the balancer sits under the given
    parent, the size is the cluster size of the options and is greater
    than 1 as the host compares it, and the children are created for the
    same behaviour with options that hold [clusterSize: 1] and, under
    every other key, what the options held; with these options no system
    clusterizes again, whatever its configuration and its host. *)
Theorem cluster_children_not_clustered
    (stringGt : string -> Z -> bool) (B : behaviour)
    (parent : option actor) (actorName : value) (o : value)
    (balancer : actor) (B' : behaviour) (size : value)
    (childOptions : gmap string value)
    (Hcluster :
       ActorSystem.placeActor stringGt B parent actorName o
       = Returned (PThen (CreateCluster balancer B' size childOptions))) :
  balancer = RoundRobinBalancerActor parent
  /\ B' = B
  /\ size = getField o "clusterSize"
  /\ jsGt stringGt size 1 = true
  /\ childOptions !! "clusterSize" = Some (VNum 1)
  /\ (forall k : string, k <> "clusterSize" ->
         childOptions !! k = allKeys o !! k)
  /\ (forall (stringGt' : string -> Z -> bool) (sys' : ActorSystem.system)
             (parent' : option actor) (b : actor) (c : behaviour)
             (s : value) (co : gmap string value),
         ActorSystem.createActor stringGt' sys' B parent' (VObj childOptions)
         <> Returned (PThen (CreateCluster b c s co))).
Proof.
  unfold ActorSystem.placeActor in Hcluster.
  destruct (jsGt stringGt _ 1) eqn:Hgt.
  - injection Hcluster as <- <- <- Hco.
    assert (Hone : childOptions !! "clusterSize" = Some (VNum 1)).
    { rewrite <- Hco. unfold extend. simpl.
      apply lookup_union_Some_l. apply lookup_singleton_eq. }
    split; [reflexivity|]. split; [reflexivity|]. split; [reflexivity|].
    split; [exact Hgt|]. split; [exact Hone|]. split.
    + intros k Hk.
      rewrite <- Hco. unfold extend. simpl.
      rewrite lookup_union_r by (by apply lookup_singleton_ne).
      rewrite lookup_union_l; [reflexivity|apply lookup_empty].
    + clear Hco. intros stringGt' sys' parent' b c s co H.
      unfold ActorSystem.createActor in H.
      destruct (ActorSystem._actorName B) as [name|]; [|discriminate].
      cbv zeta in H. rewrite orEmpty_object in H.
      unfold ActorSystem.placeActor in H.
      rewrite (actorOptions_caller_key sys' name _ _ _ Hone) in H.
      change (jsGt stringGt' (VNum 1) 1) with false in H.
      destruct (strictEqStr _ "in-memory"); [discriminate|].
      destruct (strictEqStr _ "forked"); discriminate.
  - destruct (strictEqStr _ "in-memory"); [discriminate|].
    destruct (strictEqStr _ "forked"); discriminate.
Qed.

Lemma cluster_children_not_clustered_witness :
  jsGt sampleStringGt (VNum 3) 1 = true
  /\ (<["clusterSize" := VNum 1]> {["mode" := VStr "forked"]}
       : gmap string value) !! "clusterSize" = Some (VNum 1)
  /\ ActorSystem.createActor sampleStringGt (systemWith fooConfig) Foo
       (Some RootActor) VUndefined
     = Returned
         (PThen (CreateCluster (RoundRobinBalancerActor (Some RootActor)) Foo
                   (VNum 3)
                   (<["clusterSize" := VNum 1]> {["mode" := VStr "forked"]}))).
Proof.
  assert (Hcluster :
            ActorSystem.placeActor sampleStringGt Foo (Some RootActor)
              (VStr "Foo")
              (VObj (<["mode" := VStr "forked"]> {["clusterSize" := VNum 3]}))
            = Returned
                (PThen (CreateCluster
                          (RoundRobinBalancerActor (Some RootActor)) Foo
                          (VNum 3)
                          (<["clusterSize" := VNum 1]>
                             {["mode" := VStr "forked"]}))))
    by reflexivity.
  destruct (cluster_children_not_clustered sampleStringGt Foo
              (Some RootActor) (VStr "Foo")
              (VObj (<["mode" := VStr "forked"]> {["clusterSize" := VNum 3]}))
              (RoundRobinBalancerActor (Some RootActor)) Foo (VNum 3)
              (<["clusterSize" := VNum 1]> {["mode" := VStr "forked"]})
              Hcluster)
    as (_ & _ & _ & Hsize & Hone & _).
  split; [exact Hsize|]. split; [exact Hone|reflexivity].
Defined.

(** X2: Without a loaded configuration, or for a behaviour whose name is
    empty, the options are the caller's: no default is added.  A call
    that gives no options then creates the actor in memory. *)
Theorem createActor_without_configuration
    (stringGt : string -> Z -> bool)
    (sys : ActorSystem.system) (B : behaviour) (parent : option actor)
    (options : value) (name : value)
    (Hname : ActorSystem._actorName B = Returned name)
    (Hnone : truthy (ActorSystem.config sys) = false \/ truthy name = false) :
  ActorSystem.actorOptions sys name (ActorSystem.orEmpty options)
  = ActorSystem.orEmpty options
  /\ (truthy options = false ->
      ActorSystem.createActor stringGt sys B parent options
      = Returned (PThen (CreateInMemory B parent name))).
Proof.
  assert (Hopts : ActorSystem.actorOptions sys name
                    (ActorSystem.orEmpty options)
                  = ActorSystem.orEmpty options).
  { unfold ActorSystem.actorOptions.
    destruct Hnone as [-> | ->]; [reflexivity|].
    by rewrite andb_false_r. }
  split; [exact Hopts|].
  intros Hfalsy. unfold ActorSystem.createActor.
  rewrite Hname, Hopts. unfold ActorSystem.orEmpty. rewrite Hfalsy.
  reflexivity.
Qed.

Lemma createActor_without_configuration_witness :
  ActorSystem.createActor sampleStringGt (systemWith emptyKeyConfig)
    Anonymous (Some RootActor) VNull
  = Returned (PThen (CreateInMemory Anonymous (Some RootActor) (VStr ""))).
Proof.
  apply (proj2 (createActor_without_configuration sampleStringGt
                  (systemWith emptyKeyConfig) Anonymous (Some RootActor)
                  VNull (VStr "") eq_refl (or_intror eq_refl))).
  reflexivity.
Defined.

(** X3: The root actor of [options.root] is created before any configuration
    is loaded: once the context is initialized, whatever the options of
    the system are, the root is created in memory, under no parent,
    never as a cluster and never forked. *)
Theorem root_created_in_memory
    (stringGt : string -> Z -> bool)
    (options : value) (root : behaviour) (name : value)
    (Hname : ActorSystem._actorName root = Returned name) :
  ActorSystem.rootActorPromise stringGt options root (Fulfilled tt)
  = ActorSystem.CustomRoot
      (Returned (PThen (CreateInMemory root None name)))
      (truthy (getField (ActorSystem.orEmpty options) "forked")).
Proof.
  unfold ActorSystem.rootActorPromise.
  destruct root as [|o|n i]; [discriminate Hname|..];
    unfold ActorSystem.createActor; rewrite Hname; reflexivity.
Qed.

Lemma root_created_in_memory_witness :
  ActorSystem.rootActorPromise sampleStringGt
    (VObj {["config" := VObj fooConfig]}) Foo (Fulfilled tt)
  = ActorSystem.CustomRoot
      (Returned (PThen (CreateInMemory Foo None (VStr "Foo")))) false.
Proof.
  exact (root_created_in_memory sampleStringGt
           (VObj {["config" := VObj fooConfig]}) Foo (VStr "Foo") eq_refl).
Defined.

(** X4: A configuration entry whose key begins with an upper-case letter is
    never consulted: adding it, or changing it, leaves the options of
    every actor as they were. *)
Theorem capitalized_config_key_ignored
    (sys : ActorSystem.system) (c : gmap string value) (key : string)
    (entry : value) (name : value) (options : value) (ch : ascii)
    (Hfirst : first key = Some ch) (Hupper : isUpper ch = true) :
  ActorSystem.actorOptions
    (ActorSystem.setConfig sys (VObj (<[key := entry]> c))) name options
  = ActorSystem.actorOptions (ActorSystem.setConfig sys (VObj c)) name
      options.
Proof.
  unfold ActorSystem.actorOptions. simpl.
  destruct (truthy name); [|reflexivity].
  rewrite lookup_insert_ne; [reflexivity|].
  intros ->.
  pose proof (decapitalize_first_not_upper _ _ Hfirst) as Hlow.
  congruence.
Qed.

Lemma capitalized_config_key_ignored_witness :
  ActorSystem.actorOptions
    (ActorSystem.setConfig (ActorSystem.new VUndefined)
       (VObj (<["Foo" := VObj {["mode" := VStr "forked"]}]> ∅)))
    (VStr "Foo") (VObj ∅)
  = ActorSystem.actorOptions
      (ActorSystem.setConfig (ActorSystem.new VUndefined) (VObj ∅))
      (VStr "Foo") (VObj ∅).
Proof.
  exact (capitalized_config_key_ignored (ActorSystem.new VUndefined) ∅ "Foo"
           (VObj {["mode" := VStr "forked"]}) (VStr "Foo") (VObj ∅)
           "F"%char eq_refl eq_refl).
Defined.

(** X5: For names that begin with an ASCII character, the configuration is
    looked up without regard to the case of the first letter: two
    behaviours whose names differ in that only, such as [Foo] and [foo],
    get the same options, and decapitalizing twice is decapitalizing
    once. *)
Theorem config_lookup_ignores_first_case
    (sys : ActorSystem.system) (c : ascii) (rest : string)
    (options : value) (Hascii : asciiFirst (String c rest)) :
  ActorSystem.actorOptions sys (VStr (String c rest)) options
  = ActorSystem.actorOptions sys (VStr (String (toLowerCase c) rest))
      options
  /\ asciiFirst (decapitalize (String c rest))
  /\ decapitalize (decapitalize (String c rest))
     = decapitalize (String c rest).
Proof.
  assert (Hidem : toLowerCase (toLowerCase c) = toLowerCase c).
  { destruct c as [[] [] [] [] [] [] [] []]; reflexivity. }
  split; [|split].
  - unfold ActorSystem.actorOptions.
    change (makeString (VStr ?s)) with s.
    cbn [decapitalize truthy String.eqb negb]. by rewrite Hidem.
  - cbn [decapitalize asciiFirst] in *.
    destruct c as [[] [] [] [] [] [] [] []];
      first [reflexivity|discriminate Hascii].
  - cbn [decapitalize]. by rewrite Hidem.
Qed.

Lemma config_lookup_ignores_first_case_witness :
  ActorSystem.actorOptions (systemWith fooConfig) (VStr "Foo") (VObj ∅)
  = ActorSystem.actorOptions (systemWith fooConfig) (VStr "foo") (VObj ∅).
Proof.
  exact (proj1 (config_lookup_ignores_first_case (systemWith fooConfig)
                  "F"%char "oo" (VObj ∅) eq_refl)).
Defined.

(** X6: Records written as object literals, with no [name], [getName] or
    [constructor] of their own, all go by the name [Object]: the entry
    [object] of the configuration applies to every one of them, and
    when it says [mode: "forked"] and no cluster size, a call without
    options forks the actor. *)
Theorem plain_records_share_object_entry
    (stringGt : string -> Z -> bool)
    (sys : ActorSystem.system) (own : gmap string field)
    (parent : option actor) (c entry : gmap string value)
    (Hn : own !! "name" = None) (Hg : own !! "getName" = None)
    (Hc : own !! "constructor" = None)
    (Hconfig : ActorSystem.config sys = VObj c)
    (Hentry : c !! "object" = Some (VObj entry))
    (Hmode : entry !! "mode" = Some (VStr "forked"))
    (Hsize : entry !! "clusterSize" = None) :
  ActorSystem.createActor stringGt sys (BObject (objectLiteral own)) parent
    VUndefined
  = Returned (PThen (CreateForked (BObject (objectLiteral own)) parent
                       (VStr "Object"))).
Proof.
  assert (Hname : ActorSystem._actorName (BObject (objectLiteral own))
                  = Returned (VStr "Object")).
  { unfold ActorSystem._actorName. simpl. rewrite Hn, Hg, Hc. reflexivity. }
  assert (Hopts : ActorSystem.actorOptions sys (VStr "Object")
                    (ActorSystem.orEmpty VUndefined)
                  = VObj (∅ ∪ (entry ∪ {["mode" := VStr "in-memory"]}))).
  { unfold ActorSystem.actorOptions. rewrite Hconfig.
    change (decapitalize (makeString (VStr "Object"))) with "object".
    cbn [getField]. rewrite Hentry. reflexivity. }
  unfold ActorSystem.createActor. rewrite Hname. cbv zeta. rewrite Hopts.
  unfold ActorSystem.placeActor, ActorSystem.switchMode. cbn [getField].
  rewrite !lookup_union, Hsize, Hmode, !lookup_empty.
  rewrite lookup_singleton_ne by discriminate.
  reflexivity.
Qed.

Lemma plain_records_share_object_entry_witness :
  ActorSystem.createActor sampleStringGt
    (systemWith {["object" := VObj {["mode" := VStr "forked"]}]})
    echoRecord (Some RootActor) VUndefined
  = Returned (PThen (CreateForked echoRecord (Some RootActor)
                       (VStr "Object"))).
Proof.
  exact (plain_records_share_object_entry sampleStringGt
           (systemWith {["object" := VObj {["mode" := VStr "forked"]}]})
           {["echo" := FFunction "echo" VUndefined]} (Some RootActor)
           {["object" := VObj {["mode" := VStr "forked"]}]}
           {["mode" := VStr "forked"]}
           eq_refl eq_refl eq_refl eq_refl eq_refl eq_refl eq_refl).
Defined.

(** ** The debug argument, and forks of forks *)

(** X7: The arguments the debug port is rewritten in are exactly those made
    of [--debug-brk=], one or more decimal digits, and anything that does
    not go on with a digit; the digits are what is read as the port.
    What follows the digits is dropped by the rewrite. *)
Theorem matchDebugBrk_characterization (arg digits : string) :
  (ActorSystem.matchDebugBrk arg = Some digits
   <-> digits <> "" /\ digitsOnly digits
       /\ exists rest : string,
            arg = "--debug-brk=" +:+ digits +:+ rest
            /\ noLeadingDigit rest)
  /\ (forall (rest : string) (counter : N),
         digits <> "" -> digitsOnly digits -> noLeadingDigit rest ->
         ActorSystem.rewriteArg ("--debug-brk=" +:+ digits +:+ rest) counter
         = ("--debug-brk=" +:+ showN (parseInt digits + counter),
            (counter + 1)%N)).
Proof.
  assert (Hback : forall rest : string,
             digits <> "" -> digitsOnly digits -> noLeadingDigit rest ->
             ActorSystem.matchDebugBrk ("--debug-brk=" +:+ digits +:+ rest)
             = Some digits).
  { intros rest Hne Hd Hn. unfold ActorSystem.matchDebugBrk.
    rewrite stripPrefix_append, (spanDigits_append _ _ Hd Hn). cbn [fst].
    destruct (String.eqb digits "") eqn:E; [|reflexivity].
    by apply String.eqb_eq in E. }
  split; [split|].
  - unfold ActorSystem.matchDebugBrk.
    destruct (stripPrefix "--debug-brk=" arg) as [tl|] eqn:Hp;
      [|discriminate].
    apply stripPrefix_Some in Hp.
    destruct (spanDigits_split tl) as (Htl & Hd & Hn).
    destruct (String.eqb (fst (spanDigits tl)) "") eqn:E; [discriminate|].
    intros [= <-]. split; [|split; [exact Hd|]].
    + intros H0. rewrite H0 in E. discriminate E.
    + exists (snd (spanDigits tl)). split; [|exact Hn].
      rewrite <- Htl. exact Hp.
  - intros (Hne & Hd & rest & -> & Hn). by apply Hback.
  - intros rest counter Hne Hd Hn. unfold ActorSystem.rewriteArg.
    rewrite (Hback rest Hne Hd Hn). reflexivity.
Qed.

Lemma matchDebugBrk_characterization_witness :
  ActorSystem.rewriteArg "--debug-brk=5858,suspend" 3
  = ("--debug-brk=5861", 4%N).
Proof.
  apply (proj2 (matchDebugBrk_characterization
                  "--debug-brk=5858,suspend" "5858") ",suspend" 3%N).
  - discriminate.
  - repeat constructor.
  - reflexivity.
Defined.

Section ForksOfForks.

Lemma mapExecArgv_length (args : list string) (counter : N) :
  length (fst (ActorSystem.mapExecArgv args counter)) = length args.
Proof.
  revert counter. induction args as [|arg rest IH]; intros counter;
    [reflexivity|].
  cbn [ActorSystem.mapExecArgv].
  destruct (ActorSystem.rewriteArg arg counter) as [arg' counter'].
  specialize (IH counter').
  destruct (ActorSystem.mapExecArgv rest counter') as [rest' counter''].
  cbn [fst length] in *. by rewrite IH.
Qed.

Lemma forkWorker_fields (e : env) (sys : ActorSystem.system) (B : behaviour) :
  ActorSystem.config (snd (ActorSystem.forkWorker e sys B))
  = ActorSystem.config sys
  /\ ActorSystem.forked (snd (ActorSystem.forkWorker e sys B))
     = ActorSystem.forked sys
  /\ ActorSystem.log (snd (ActorSystem.forkWorker e sys B))
     = ActorSystem.log sys
  /\ modulePath (fst (ActorSystem.forkWorker e sys B))
     = dirname e +:+ "/forked-actor-worker.js".
Proof.
  unfold ActorSystem.forkWorker.
  destruct (ActorSystem.mapExecArgv (execArgv e)
              (ActorSystem.debugPortCounter sys)) as [argv counter].
  repeat split.
Qed.

End ForksOfForks.

(** X8: However many debug arguments the process has, after [n] spawns the
    counter has grown by [n] times their number; every child is started
    from the worker script of the library with as many arguments as the
    process has; and the spawns leave the configuration, the log and the
    forked flag of the system alone. *)
Theorem forkWorkers_accounting
    (e : env) (sys : ActorSystem.system) (Behaviours : list behaviour) :
  ActorSystem.debugPortCounter (snd (forkWorkers e sys Behaviours))
  = (ActorSystem.debugPortCounter sys
     + N.of_nat (length Behaviours * length (debugPortsOf (execArgv e))))%N
  /\ length (fst (forkWorkers e sys Behaviours)) = length Behaviours
  /\ Forall (fun w => length (forkExecArgv w) = length (execArgv e)
                      /\ modulePath w
                         = dirname e +:+ "/forked-actor-worker.js")
            (fst (forkWorkers e sys Behaviours))
  /\ ActorSystem.config (snd (forkWorkers e sys Behaviours))
     = ActorSystem.config sys
  /\ ActorSystem.log (snd (forkWorkers e sys Behaviours))
     = ActorSystem.log sys
  /\ ActorSystem.forked (snd (forkWorkers e sys Behaviours))
     = ActorSystem.forked sys.
Proof.
  revert sys. induction Behaviours as [|B rest IH]; intros sys.
  - cbn. repeat split; [lia|constructor].
  - cbn [forkWorkers].
    destruct (forkWorker_execArgv e sys B) as [Hargv Hcounter].
    destruct (forkWorker_fields e sys B) as (Hc & Hf & Hl & Hm).
    rewrite mapExecArgv_counter in Hcounter.
    pose proof (mapExecArgv_length (execArgv e)
                  (ActorSystem.debugPortCounter sys)) as Hlen.
    rewrite <- Hargv in Hlen.
    destruct (ActorSystem.forkWorker e sys B) as [w sys1].
    cbn [fst snd] in *.
    destruct (IH sys1) as (IHc & IHn & IHall & IHcfg & IHlog & IHf).
    destruct (forkWorkers e sys1 rest) as [ws sys2].
    cbn [fst snd length] in *.
    split; [rewrite IHc, Hcounter, Nat.mul_succ_l, Nat2N.inj_add; lia|].
    split; [by rewrite IHn|].
    split; [constructor; [split; assumption|exact IHall]|].
    split; [congruence|]. split; congruence.
Qed.

(** X9: Ports are kept apart among the children of one system only.  A child
    that forks in turn starts from the port it was given, with a counter
    of its own that begins at 1: its first child gets the very port the
    next child of its parent gets. *)
Theorem grandchild_port_collides
    (e : env) (port : N) (sys : ActorSystem.system)
    (Behaviours : list behaviour) (k : nat) (w w' : forkCall)
    (options : value) (B : behaviour)
    (Hone : debugPortsOf (execArgv e) = [port])
    (Hchild : fst (forkWorkers e sys Behaviours) !! k = Some w)
    (Hnext : fst (forkWorkers e sys Behaviours) !! S k = Some w') :
  debugPortsOf
    (forkExecArgv
       (fst (ActorSystem.forkWorker (workerEnv e w)
               (ActorSystem.new options) B)))
  = debugPortsOf (forkExecArgv w').
Proof.
  pose proof (forkWorkers_lookup e port Hone _ _ _ _ Hchild) as Hw.
  pose proof (forkWorkers_lookup e port Hone _ _ _ _ Hnext) as Hw'.
  rewrite Hw'.
  rewrite (proj1 (forkWorker_one_port (workerEnv e w) _ Hw
                    (ActorSystem.new options) B)).
  cbn [ActorSystem.new ActorSystem.debugPortCounter]. f_equal. lia.
Qed.

Lemma grandchild_port_collides_witness :
  debugPortsOf
    (forkExecArgv
       (fst (ActorSystem.forkWorker
               (workerEnv sampleEnv
                  {| modulePath := "/app/node_modules/comedy/lib/forked-actor-worker.js";
                     psArgs := ["Foo"];
                     forkExecArgv := ["--harmony"; "--debug-brk=5859"] |})
               (ActorSystem.new VUndefined) echoRecord)))
  = [5860%N].
Proof.
  exact (grandchild_port_collides sampleEnv 5858%N
           (ActorSystem.new VUndefined) [Foo; Foo] 0%nat _ _
           VUndefined echoRecord eq_refl eq_refl eq_refl).
Defined.

(** ** What the handshake and the loader never do *)



(** X11: Whatever the depth allowed, a load that settles is fulfilled.  It
    leaves the debug port counter and the forked flag alone, adds at
    most two calls to the log, all of them [info], and the configuration
    it leaves is the one the system had, the record given, or what a
    file holds. *)
Theorem loadConfiguration_frame
    (fuel : nat) (e : env) (sys : ActorSystem.system) (config : value)
    (sys' : ActorSystem.system) (r : settled unit)
    (Hrun : ActorSystem._loadConfiguration fuel e sys config
            = Some (sys', r)) :
  r = Fulfilled tt
  /\ ActorSystem.debugPortCounter sys' = ActorSystem.debugPortCounter sys
  /\ ActorSystem.forked sys' = ActorSystem.forked sys
  /\ (exists messages : list string,
         ActorSystem.log sys'
         = ActorSystem.log sys ++ List.map (pair LogInfo) messages
         /\ (length messages <= 2)%nat)
  /\ (ActorSystem.config sys' = ActorSystem.config sys
      \/ (isObject config = true /\ ActorSystem.config sys' = config)
      \/ exists path : string,
           ActorSystem.readJSON e path = Some (ActorSystem.config sys')).
Proof.
  assert (Hdefault : forall (f : nat) (s s' : ActorSystem.system)
                            (r' : settled unit) (c : value),
    isObject c = false -> isString c = false ->
    ActorSystem._loadConfiguration f e s c = Some (s', r') ->
    r' = Fulfilled tt
    /\ ActorSystem.debugPortCounter s' = ActorSystem.debugPortCounter s
    /\ ActorSystem.forked s' = ActorSystem.forked s
    /\ (exists m : string,
           ActorSystem.log s' = ActorSystem.log s ++ [(LogInfo, m)])
    /\ (ActorSystem.config s' = ActorSystem.config s
        \/ exists path : string,
             ActorSystem.readJSON e path = Some (ActorSystem.config s'))).
  { intros f s s' r' c Hobj Hstr H. destruct f as [|f]; [discriminate|].
    cbn [ActorSystem._loadConfiguration] in H. rewrite Hobj in H.
    destruct c; try discriminate Hstr;
      (destruct (ActorSystem.readJSON e (ActorSystem.defaultPath e))
         as [data|] eqn:Hread; injection H as <- <-;
       (split; [reflexivity|]); (split; [reflexivity|]);
       (split; [reflexivity|]); (split; [eexists; reflexivity|]);
       [right; exists (ActorSystem.defaultPath e); exact Hread
       |left; reflexivity]). }
  destruct fuel as [|fuel]; [discriminate|].
  cbn [ActorSystem._loadConfiguration] in Hrun.
  destruct (isObject config) eqn:Hobj.
  - cbn [ActorSystem.setConfig ActorSystem.forked] in Hrun.
    destruct (ActorSystem.forked sys) eqn:Hforked;
      injection Hrun as <- <-;
      (split; [reflexivity|]); (split; [reflexivity|]);
      (split; [simpl; by rewrite Hforked|]);
      (split; [|right; left; split; reflexivity]).
    + exists []. split; [simpl; by rewrite app_nil_r|simpl; lia].
    + exists ["Using programmatic actor configuration."].
      split; [reflexivity|simpl; lia].
  - destruct (isString config) eqn:Hstr.
    + destruct config; try discriminate Hstr.
      destruct (ActorSystem.readJSON e s) as [data|] eqn:Hread.
      * injection Hrun as <- <-.
        split; [reflexivity|]. split; [reflexivity|].
        split; [reflexivity|]. split.
        -- eexists [_]. split; [reflexivity|simpl; lia].
        -- right. right. exists s. exact Hread.
      * apply Hdefault in Hrun; [|reflexivity|reflexivity].
        destruct Hrun as (-> & Hc & Hf & [m Hlog] & Hcfg).
        split; [reflexivity|]. split; [exact Hc|]. split; [exact Hf|].
        split.
        -- eexists [_; m]. split; [|simpl; lia].
           rewrite Hlog. simpl. rewrite <- app_assoc. reflexivity.
        -- destruct Hcfg as [Hcfg|Hcfg]; [left; exact Hcfg|].
           right. right. exact Hcfg.
    + assert (H : ActorSystem._loadConfiguration (S fuel) e sys config
                  = Some (sys', r)).
      { cbn [ActorSystem._loadConfiguration]. rewrite Hobj. exact Hrun. }
      apply Hdefault in H; [|exact Hobj|exact Hstr].
      destruct H as (-> & Hc & Hf & [m Hlog] & Hcfg).
      split; [reflexivity|]. split; [exact Hc|]. split; [exact Hf|].
      split.
      * exists [m]. split; [exact Hlog|simpl; lia].
      * destruct Hcfg as [Hcfg|Hcfg]; [left; exact Hcfg|].
        right. right. exact Hcfg.
Qed.

Lemma loadConfiguration_frame_witness :
  ActorSystem.debugPortCounter
    (ActorSystem.logInfo
       (ActorSystem.setConfig (ActorSystem.new VUndefined)
          (VObj {["worker" := VObj {["mode" := VStr "forked"]}]}))
       "Using actor configuration file: /app/actors.json")
  = 1%N.
Proof.
  exact (proj1 (proj2 (loadConfiguration_frame 1 defaultFileEnv
                         (ActorSystem.new VUndefined) VNull
                         (ActorSystem.logInfo
                            (ActorSystem.setConfig (ActorSystem.new VUndefined)
                               (VObj {["worker" :=
                                         VObj {["mode" := VStr "forked"]}]}))
                            "Using actor configuration file: /app/actors.json")
                         (Fulfilled tt) eq_refl))).
Defined.

(** ** Serializing a behaviour *)

Section Serialize.

Lemma append_associative (a b c : string) :
  (a +:+ b) +:+ c = a +:+ (b +:+ c).
Proof.
  induction a as [|x a IH]; [reflexivity|].
  change (String x ((a +:+ b) +:+ c) = String x (a +:+ (b +:+ c))).
  by rewrite IH.
Qed.

Lemma concat_empty_snoc (l : list string) (x : string) :
  String.concat "" (l ++ [x]) = String.concat "" l +:+ x.
Proof.
  induction l as [|a l IH]; [reflexivity|].
  destruct l as [|b l]; [reflexivity|].
  change (a +:+ String.concat "" ((b :: l) ++ [x])
          = (a +:+ String.concat "" (b :: l)) +:+ x).
  by rewrite IH, append_associative.
Qed.

Lemma hasName_classChain (top : ActorSystem.serializable) (source : string)
    (ancestors : list string) :
  ActorSystem.hasName (classChain top source ancestors) = true.
Proof. destruct ancestors; reflexivity. Qed.

End Serialize.

(** X12: The text for a class is the sources of its user-defined ancestors,
    the farthest first, then its own: evaluated from top to bottom, a
    parent is defined before the class that extends it.  The walk stops
    at the first prototype without a name, so that this prototype and
    whatever lies above it, named or not, is left out.  A plain object is
    its own source, and the text for any behaviour ends with its
    source. *)
Theorem serializeBehaviour_chain
    (top : ActorSystem.serializable) (source : string)
    (ancestors : list string)
    (Htop : ActorSystem.hasName top = false) :
  ActorSystem._serializeBehaviour (classChain top source ancestors)
  = String.concat "" (rev (source :: ancestors))
  /\ (forall (named : bool) (text : string)
             (prototype : option ActorSystem.serializable),
         ActorSystem._serializeBehaviour
           (ActorSystem.Serializable true named text prototype) = text)
  /\ (forall b : ActorSystem.serializable,
         exists before : string,
           ActorSystem._serializeBehaviour b
           = before +:+ ActorSystem.sourceOf b).
Proof.
  split; [|split].
  - revert source. induction ancestors as [|parent rest IH]; intros source.
    + cbn [classChain ActorSystem._serializeBehaviour negb].
      rewrite Htop. reflexivity.
    + cbn [classChain ActorSystem._serializeBehaviour negb].
      rewrite hasName_classChain, IH.
      change (rev (source :: parent :: rest))
        with (rev (parent :: rest) ++ [source]).
      by rewrite concat_empty_snoc.
  - reflexivity.
  - intros [plain named text [base|]]; cbn [ActorSystem._serializeBehaviour
                                             ActorSystem.sourceOf].
    + destruct plain; cbn [negb]; [by exists ""|].
      destruct (ActorSystem.hasName base); [eexists; reflexivity|by exists ""].
    + destruct plain; by exists "".
Qed.

Lemma serializeBehaviour_chain_witness :
  ActorSystem._serializeBehaviour
    (classChain (ActorSystem.Serializable false false "function () {}" None)
       "class C extends P {}" ["class P extends Q {}"; "class Q {}"])
  = "class Q {}class P extends Q {}class C extends P {}".
Proof.
  exact (proj1 (serializeBehaviour_chain
                  (ActorSystem.Serializable false false "function () {}" None)
                  "class C extends P {}"
                  ["class P extends Q {}"; "class Q {}"] eq_refl)).
Defined.

(** ** Assignments to the logger configuration *)

Section Assignments.

Variable LogLevel : LogLevelEnum.

(** What an assignment stores does not depend on what was stored. *)
Lemma set_current_overwrites (self self' : LoggerConfiguration.t)
    (v : option (gmap string value)) :
  LoggerConfiguration._current
    (LoggerConfiguration.set_current LogLevel self v)
  = LoggerConfiguration._current
      (LoggerConfiguration.set_current LogLevel self' v).
Proof. reflexivity. Qed.

Lemma assignAll_emitted (values : list (option (gmap string value)))
    (self : LoggerConfiguration.t) :
  LoggerConfiguration.emitted (assignAll LogLevel self values)
  = LoggerConfiguration.emitted self
    ++ ((fun v =>
           (LoggerConfiguration.CONFIG_CHANGE,
            LoggerConfiguration._current
              (LoggerConfiguration.set_current LogLevel self v)))
          <$> values).
Proof.
  unfold assignAll. revert self.
  induction values as [|v values IH]; intros self.
  - simpl. by rewrite app_nil_r.
  - cbn [foldl]. rewrite IH, fmap_cons.
    cbn [LoggerConfiguration.set_current LoggerConfiguration.emitted].
    rewrite <- app_assoc. reflexivity.
Qed.

Lemma stored_typeof_categories (self : LoggerConfiguration.t)
    (v : option (gmap string value)) (c : gmap string value) :
  LoggerConfiguration._current
    (LoggerConfiguration.set_current LogLevel self v) = Some c ->
  typeOf (getField (VObj c) "categories") = "object".
Proof.
  unfold LoggerConfiguration.set_current. destruct v as [c0|]; simpl.
  - destruct (String.eqb (typeOf (default VUndefined (c0 !! "categories")))
                         "object") eqn:E; simpl; intros [= <-].
    + simpl. by apply String.eqb_eq.
    + unfold LoggerConfiguration.lodashExtend. simpl.
      rewrite lookup_union_l'; rewrite lookup_singleton_eq; [done|eauto].
  - intros [= <-]. unfold LoggerConfiguration.lodashExtend. simpl.
    rewrite lookup_union_l'; rewrite lookup_singleton_eq; [done|eauto].
Qed.

End Assignments.

(** X13: After any assignments that end with the value [v], the configuration
    held is a record whose [categories] has type [object], and it is the
    one the assignment of [v] alone stores: earlier assignments leave no
    trace in it.  Assigning the record held once more stores it as it
    is.  There is one [configChange] per assignment, in order, each with
    the configuration its assignment stored. *)
Theorem assignments_store_last
    (LogLevel : LogLevelEnum) (self : LoggerConfiguration.t)
    (values : list (option (gmap string value)))
    (v : option (gmap string value)) :
  LoggerConfiguration._current (assignAll LogLevel self (values ++ [v]))
  = LoggerConfiguration._current
      (LoggerConfiguration.set_current LogLevel self v)
  /\ (exists c : gmap string value,
         LoggerConfiguration._current
           (assignAll LogLevel self (values ++ [v])) = Some c
         /\ typeOf (getField (VObj c) "categories") = "object"
         /\ LoggerConfiguration._current
              (LoggerConfiguration.set_current LogLevel
                 (assignAll LogLevel self (values ++ [v])) (Some c))
            = Some c)
  /\ LoggerConfiguration.emitted (assignAll LogLevel self (values ++ [v]))
     = LoggerConfiguration.emitted self
       ++ ((fun v =>
              (LoggerConfiguration.CONFIG_CHANGE,
               LoggerConfiguration._current
                 (LoggerConfiguration.set_current LogLevel self v)))
             <$> (values ++ [v])).
Proof.
  assert (Hlast :
    LoggerConfiguration._current (assignAll LogLevel self (values ++ [v]))
    = LoggerConfiguration._current
        (LoggerConfiguration.set_current LogLevel self v)).
  { unfold assignAll. rewrite foldl_app. reflexivity. }
  split; [exact Hlast|]. split; [|apply assignAll_emitted].
  destruct (LoggerConfiguration._current
              (LoggerConfiguration.set_current LogLevel self v))
    as [c|] eqn:Hc.
  - exists c. split; [by rewrite Hlast|].
    pose proof (stored_typeof_categories _ _ _ _ Hc) as Htype.
    split; [exact Htype|].
    unfold LoggerConfiguration.set_current.
    cbn [LoggerConfiguration._current]. rewrite Htype. reflexivity.
  - exfalso. revert Hc. unfold LoggerConfiguration.set_current.
    destruct v as [c0|]; simpl; [|discriminate].
    destruct (negb _); discriminate.
Qed.

(** X14: A value that is absent, or whose [categories] is missing or a number,
    a string or a boolean, is stored with [categories] set to
    [{ Default: Info }] and every other property as it was. *)
Theorem assignment_defaults_categories
    (LogLevel : LogLevelEnum) (self : LoggerConfiguration.t)
    (v : option (gmap string value))
    (Hinvalid :
       v = None
       \/ exists c : gmap string value,
            v = Some c
            /\ match c !! "categories" with
               | None => True
               | Some (VNum _) | Some (VStr _) | Some (VBool _)
               | Some VUndefined => True
               | _ => False
               end) :
  exists stored : gmap string value,
    LoggerConfiguration._current
      (LoggerConfiguration.set_current LogLevel self v) = Some stored
    /\ stored !! "categories"
       = Some (VObj {["Default" := VNum (Info LogLevel)]})
    /\ forall k : string, k <> "categories" ->
         stored !! k = default ∅ v !! k.
Proof.
  exists (<["categories" := VObj {["Default" := VNum (Info LogLevel)]}]>
            (default ∅ v)).
  split; [|split; [apply lookup_insert_eq
                  |intros k Hk; by apply lookup_insert_ne]].
  unfold LoggerConfiguration.set_current, LoggerConfiguration.lodashExtend.
  destruct Hinvalid as [->|(c & -> & Hc)]; simpl.
  - by rewrite insert_union_singleton_l.
  - destruct (c !! "categories") as [[| |b|n|s|items|props]|];
      try contradiction; simpl; by rewrite insert_union_singleton_l.
Qed.

Lemma assignment_defaults_categories_witness :
  exists stored : gmap string value,
    LoggerConfiguration._current
      (LoggerConfiguration.set_current sampleLevels
         (LoggerConfiguration.new sampleLevels None)
         (Some {["categories" := VStr "all"]})) = Some stored
    /\ stored !! "categories" = Some (VObj {["Default" := VNum 3]}).
Proof.
  destruct (assignment_defaults_categories sampleLevels
              (LoggerConfiguration.new sampleLevels None)
              (Some {["categories" := VStr "all"]}))
    as (stored & Hs & Hc & _).
  { right. exists {["categories" := VStr "all"]}.
    split; [reflexivity|]. vm_compute. exact I. }
  exists stored. split; [exact Hs|exact Hc].
Defined.

(** ** Reading a category's level *)

Section CategoryLevel.

Variable builtin : value -> string -> bool.

Lemma getCategoryLevel_record (self : LoggerConfiguration.t)
    (current categories : gmap string value) (category : string) :
  LoggerConfiguration._current self = Some current ->
  current !! "categories" = Some (VObj categories) ->
  LoggerConfiguration.getCategoryLevel builtin self category
  = Returned
      (if LoggerConfiguration.memberTruthy
            (LoggerConfiguration.readMember builtin (VObj categories)
               category)
       then LoggerConfiguration.readMember builtin (VObj categories) category
       else LoggerConfiguration.readMember builtin (VObj categories)
              "Default").
Proof.
  intros Hcurrent Hcategories.
  unfold LoggerConfiguration.getCategoryLevel. rewrite Hcurrent.
  cbn [getField]. rewrite Hcategories. cbn [default from_option id isNullish].
  destruct (LoggerConfiguration.memberTruthy _); reflexivity.
Qed.

Lemma new_absent_current (LogLevel : LogLevelEnum) :
  LoggerConfiguration._current (LoggerConfiguration.new LogLevel None)
  = Some {["categories" := VObj {["Default" := VNum (Info LogLevel)]}]}.
Proof.
  unfold LoggerConfiguration.new, LoggerConfiguration.set_current,
    LoggerConfiguration.lodashExtend.
  cbn [LoggerConfiguration._current default from_option id].
  by rewrite map_union_empty.
Qed.

End CategoryLevel.

(** X15: For a category that has an entry among the categories of a record,
    the level is the entry only when it is truthy: a level of 0, like
    any falsy entry, is passed over and the level read under [Default]
    is returned instead. *)
Theorem getCategoryLevel_own_entry
    (builtin : value -> string -> bool) (self : LoggerConfiguration.t)
    (current categories : gmap string value) (category : string)
    (level : value)
    (Hcurrent : LoggerConfiguration._current self = Some current)
    (Hcategories : current !! "categories" = Some (VObj categories))
    (Hlevel : categories !! category = Some level) :
  LoggerConfiguration.getCategoryLevel builtin self category
  = Returned
      (if truthy level then LoggerConfiguration.Data level
       else LoggerConfiguration.readMember builtin (VObj categories)
              "Default")
  /\ (level = VNum 0 ->
      forall d : value, categories !! "Default" = Some d ->
        LoggerConfiguration.getCategoryLevel builtin self category
        = Returned (LoggerConfiguration.Data d)).
Proof.
  rewrite (getCategoryLevel_record builtin _ _ _ _ Hcurrent Hcategories).
  unfold LoggerConfiguration.readMember.
  cbn [LoggerConfiguration.ownProperty]. rewrite Hlevel.
  cbn [LoggerConfiguration.memberTruthy].
  split; [reflexivity|].
  intros -> d Hd. cbn [truthy Z.eqb negb]. rewrite Hd. reflexivity.
Qed.

Lemma getCategoryLevel_own_entry_witness :
  LoggerConfiguration.getCategoryLevel sampleBuiltin
    (LoggerConfiguration.new sampleLevels
       (Some {["categories" :=
                 VObj (<["Database" := VNum 0]> {["Default" := VNum 4]})]}))
    "Database"
  = Returned (LoggerConfiguration.Data (VNum 4)).
Proof.
  refine (proj2 (getCategoryLevel_own_entry sampleBuiltin
                  (LoggerConfiguration.new sampleLevels
                     (Some {["categories" :=
                               VObj (<["Database" := VNum 0]>
                                       {["Default" := VNum 4]})]}))
                  {["categories" :=
                      VObj (<["Database" := VNum 0]> {["Default" := VNum 4]})]}
                  (<["Database" := VNum 0]> {["Default" := VNum 4]})
                  "Database" (VNum 0) _ _ _)
           eq_refl (VNum 4) _);
    reflexivity.
Defined.

(** X16: For a category without an entry of its own, the level is the one
    read under [Default], unless the name is one every object inherits,
    such as [constructor]: then the inherited member is returned as the
    level. *)
Theorem getCategoryLevel_missing_entry
    (builtin : value -> string -> bool) (self : LoggerConfiguration.t)
    (current categories : gmap string value) (category : string)
    (Hcurrent : LoggerConfiguration._current self = Some current)
    (Hcategories : current !! "categories" = Some (VObj categories))
    (Hmissing : categories !! category = None) :
  LoggerConfiguration.getCategoryLevel builtin self category
  = Returned
      (if builtin (VObj categories) category
       then LoggerConfiguration.Builtin category
       else LoggerConfiguration.readMember builtin (VObj categories)
              "Default").
Proof.
  rewrite (getCategoryLevel_record builtin _ _ _ _ Hcurrent Hcategories).
  unfold LoggerConfiguration.readMember at 1 2.
  cbn [LoggerConfiguration.ownProperty]. rewrite Hmissing.
  destruct (builtin (VObj categories) category); reflexivity.
Qed.

Lemma getCategoryLevel_missing_entry_witness :
  LoggerConfiguration.getCategoryLevel sampleBuiltin
    (LoggerConfiguration.new sampleLevels
       (Some {["categories" := VObj {["Default" := VNum 4]}]}))
    "constructor"
  = Returned (LoggerConfiguration.Builtin "constructor").
Proof.
  rewrite (getCategoryLevel_missing_entry sampleBuiltin
             (LoggerConfiguration.new sampleLevels
                (Some {["categories" := VObj {["Default" := VNum 4]}]}))
             {["categories" := VObj {["Default" := VNum 4]}]}
             {["Default" := VNum 4]} "constructor");
    reflexivity.
Defined.

(** X17: A configuration constructed from nothing gives [Info] for every
    category whose name is not one every object inherits. *)
Theorem getCategoryLevel_of_absent_configuration
    (LogLevel : LogLevelEnum) (builtin : value -> string -> bool)
    (category : string)
    (Hname : builtin (VObj {["Default" := VNum (Info LogLevel)]}) category
             = false) :
  LoggerConfiguration.getCategoryLevel builtin
    (LoggerConfiguration.new LogLevel None) category
  = Returned (LoggerConfiguration.Data (VNum (Info LogLevel))).
Proof.
  rewrite (getCategoryLevel_record builtin _ _ _ category
             (new_absent_current LogLevel) (lookup_singleton_eq _ _)).
  unfold LoggerConfiguration.readMember.
  cbn [LoggerConfiguration.ownProperty].
  rewrite (lookup_singleton_eq (M := gmap string)).
  destruct (decide (category = "Default")) as [->|Hne].
  - rewrite lookup_singleton_eq.
    destruct (LoggerConfiguration.memberTruthy _); reflexivity.
  - rewrite lookup_singleton_ne by congruence. rewrite Hname. reflexivity.
Qed.

Lemma getCategoryLevel_of_absent_configuration_witness :
  LoggerConfiguration.getCategoryLevel sampleBuiltin
    (LoggerConfiguration.new sampleLevels None) "Database"
  = Returned (LoggerConfiguration.Data (VNum 3)).
Proof.
  exact (getCategoryLevel_of_absent_configuration sampleLevels sampleBuiltin
           "Database" eq_refl).
Defined.

(** X18: A record with [categories: null] is stored as it is, and from then
    on every request for a level throws a [TypeError]. *)
Theorem getCategoryLevel_null_categories
    (LogLevel : LogLevelEnum) (builtin : value -> string -> bool)
    (self : LoggerConfiguration.t) (c : gmap string value)
    (category : string)
    (Hnull : c !! "categories" = Some VNull) :
  LoggerConfiguration._current
    (LoggerConfiguration.set_current LogLevel self (Some c)) = Some c
  /\ exists text : string,
       LoggerConfiguration.getCategoryLevel builtin
         (LoggerConfiguration.set_current LogLevel self (Some c)) category
       = Thrown (MkTypeError text).
Proof.
  assert (Hkept : LoggerConfiguration._current
                    (LoggerConfiguration.set_current LogLevel self (Some c))
                  = Some c).
  { apply set_current_keeps. cbn [getField]. rewrite Hnull. reflexivity. }
  split; [exact Hkept|].
  unfold LoggerConfiguration.getCategoryLevel. rewrite Hkept.
  cbn [getField]. rewrite Hnull. cbn [default from_option id isNullish].
  eexists. reflexivity.
Qed.

Lemma getCategoryLevel_null_categories_witness :
  exists text : string,
    LoggerConfiguration.getCategoryLevel sampleBuiltin
      (LoggerConfiguration.new sampleLevels (Some {["categories" := VNull]}))
      "Default"
    = Thrown (MkTypeError text).
Proof.
  exact (proj2 (getCategoryLevel_null_categories sampleLevels sampleBuiltin
                  {| LoggerConfiguration._current := None;
                     LoggerConfiguration.emitted := [] |}
                  {["categories" := VNull]} "Default" eq_refl)).
Defined.

(** ** Levels of the log wrapper *)

(** X19: Raising the level never silences a method: what [debug], [log],
    [info] or [warn] hands to the underlying logger at one level it also
    hands over at every higher level.  A method makes at most one call,
    [log] the same one as [info], and none of them changes the level or
    the category. *)
Theorem level_monotone
    (LogLevel : LogLevelEnum) (self : LogWrapper.t) (l l' : Z)
    (m : string) (Hle : l <= l') :
  (LogWrapper.debug LogLevel (LogWrapper.set_level self l) m
   <> LogWrapper.set_level self l ->
   LogWrapper.logger
     (LogWrapper.debug LogLevel (LogWrapper.set_level self l') m)
   = LogWrapper.logger self ++ [(LogDebug, m)])
  /\ (LogWrapper.info LogLevel (LogWrapper.set_level self l) m
      <> LogWrapper.set_level self l ->
      LogWrapper.logger
        (LogWrapper.info LogLevel (LogWrapper.set_level self l') m)
      = LogWrapper.logger self ++ [(LogInfo, m)])
  /\ (LogWrapper.warn LogLevel (LogWrapper.set_level self l) m
      <> LogWrapper.set_level self l ->
      LogWrapper.logger
        (LogWrapper.warn LogLevel (LogWrapper.set_level self l') m)
      = LogWrapper.logger self ++ [(LogWarn, m)])
  /\ LogWrapper.log LogLevel self m = LogWrapper.info LogLevel self m
  /\ (forall f, In f [LogWrapper.debug; LogWrapper.log; LogWrapper.info;
                      LogWrapper.warn] ->
        LogWrapper._level (f LogLevel self m) = LogWrapper._level self
        /\ LogWrapper._category (f LogLevel self m)
           = LogWrapper._category self
        /\ (LogWrapper.logger (f LogLevel self m) = LogWrapper.logger self
            \/ exists method,
                 LogWrapper.logger (f LogLevel self m)
                 = LogWrapper.logger self ++ [(method, m)])).
Proof.
  assert (Hstep : forall (threshold : Z) (method : logMethod),
    (if threshold <=? l
     then LogWrapper.call (LogWrapper.set_level self l) method m
     else LogWrapper.set_level self l) <> LogWrapper.set_level self l ->
    LogWrapper.logger
      (if threshold <=? l'
       then LogWrapper.call (LogWrapper.set_level self l') method m
       else LogWrapper.set_level self l')
    = LogWrapper.logger self ++ [(method, m)]).
  { intros threshold method H.
    destruct (threshold <=? l) eqn:E; [|contradiction].
    apply Z.leb_le in E.
    assert (E' : (threshold <=? l') = true) by (apply Z.leb_le; lia).
    rewrite E'. reflexivity. }
  split; [apply Hstep|]. split; [apply Hstep|]. split; [apply Hstep|].
  split; [reflexivity|].
  intros f Hf. simpl in Hf.
  destruct Hf as [<-|[<-|[<-|[<-|[]]]]];
    unfold LogWrapper.debug, LogWrapper.log, LogWrapper.info,
      LogWrapper.warn;
    match goal with |- context [if ?b then _ else _] => destruct b end;
    (split; [reflexivity|]); (split; [reflexivity|]);
    try (left; reflexivity); right; eexists; reflexivity.
Qed.

Lemma level_monotone_witness :
  LogWrapper.logger
    (LogWrapper.warn sampleLevels
       (LogWrapper.set_level (LogWrapper.new sampleLevels None None) 4)
       "careful")
  = [(LogWarn, "careful")].
Proof.
  apply (proj1 (proj2 (proj2
           (level_monotone sampleLevels
              (LogWrapper.new sampleLevels None None) 2 4 "careful"
              (Zle_bool_imp_le 2 4 eq_refl)))));
    discriminate.
Defined.

(** X20: When [Warn] is not above [Info] and [Info] not above [Debug], the
    methods are nested: a wrapper for which [isDebug] holds emits with
    [debug], [info] and [warn] alike, and one that emits with [info]
    emits with [warn]; [isDebug] says exactly whether [debug] emits. *)
Theorem methods_nested
    (LogLevel : LogLevelEnum) (self : LogWrapper.t) (m : string)
    (Hwarn : Warn LogLevel <= Info LogLevel)
    (Hinfo : Info LogLevel <= Debug LogLevel) :
  (LogWrapper.isDebug LogLevel self = true <->
   LogWrapper.debug LogLevel self m = LogWrapper.call self LogDebug m)
  /\ (LogWrapper.isDebug LogLevel self = true ->
      LogWrapper.info LogLevel self m = LogWrapper.call self LogInfo m
      /\ LogWrapper.warn LogLevel self m = LogWrapper.call self LogWarn m)
  /\ (LogWrapper.info LogLevel self m = LogWrapper.call self LogInfo m ->
      LogWrapper.warn LogLevel self m = LogWrapper.call self LogWarn m)
  /\ (LogWrapper.warn LogLevel self m = self ->
      LogWrapper.info LogLevel self m = self
      /\ LogWrapper.debug LogLevel self m = self).
Proof.
  assert (Hneq : forall method, LogWrapper.call self method m <> self).
  { intros method H. apply (f_equal LogWrapper.logger) in H.
    cbn in H. apply (f_equal length) in H. rewrite length_app in H.
    simpl in H. lia. }
  unfold LogWrapper.isDebug, LogWrapper.debug, LogWrapper.info,
    LogWrapper.warn.
  destruct (Debug LogLevel <=? LogWrapper._level self) eqn:Ed;
    destruct (Info LogLevel <=? LogWrapper._level self) eqn:Ei;
    destruct (Warn LogLevel <=? LogWrapper._level self) eqn:Ew;
    rewrite ?Z.leb_le, ?Z.leb_gt in *; try lia;
    (split; [split; [try reflexivity; try discriminate
                    |intros H; try reflexivity;
                     exfalso; exact (Hneq _ (eq_sym H))]|]);
    (split; [intros H; try discriminate H; split; reflexivity|]);
    (split; [intros H; try reflexivity; exfalso;
             exact (Hneq _ (eq_sym H))|]);
    intros H; try (exfalso; exact (Hneq _ H)); split; reflexivity.
Qed.

Lemma methods_nested_witness :
  LogWrapper.warn sampleLevels
    (LogWrapper.set_level (LogWrapper.new sampleLevels None None) 4)
    "careful"
  = LogWrapper.call
      (LogWrapper.set_level (LogWrapper.new sampleLevels None None) 4)
      LogWarn "careful".
Proof.
  refine (proj2 (proj1 (proj2
            (methods_nested sampleLevels
               (LogWrapper.set_level (LogWrapper.new sampleLevels None None) 4)
               "careful" _ _)) eq_refl)); simpl; lia.
Defined.
